(** * Label layout generators: corner labels, label grids and plaques

    A shallow embedding of the three generators of the repository

    - [corner_label_generator.py]       (one label per corner of an artboard),
    - [corner_label_generator_grid2.py] (one label per cell of a grid),
    - [plaqueGenerator.py]              (a rounded plaque fitted to its text),

    followed by the properties their specification states about them.

    Numbers are the ones Python computes with: a Python [float] is an IEEE 754
    binary64 value, here Rocq's primitive [float]; a Python [int] is an
    unbounded integer, here [Z].  Mixed arithmetic converts the [int] operand
    to [float] first, which raises [OverflowError] when the integer is too
    large; every function that performs such a conversion therefore returns a
    [result].  A Python [str] is a [string], one character each, and an
    [Optional[str]] an [option string].  File-system effects, the [print]
    calls and the external converters (cairosvg, inkscape) are outside the
    model: [writeSvg] returns the list of documents it writes, in the order
    it writes them. *)

From Stdlib Require Import ZArith Floats List String Ascii Bool Lia.
Import ListNotations.

Set Warnings "-inexact-float".

Local Open Scope string_scope.
Local Open Scope Z_scope.

(** ** Python values and errors *)

Module Py.

(** The exceptions the modelled code can raise. *)
Inductive exn : Type :=
| OverflowError   (* int too large to convert to float *)
| IndexError.     (* list index out of range *)

Inductive result (A : Type) : Type :=
| Ok (a : A)
| Raise (e : exn).
Arguments Ok {A} a.
Arguments Raise {A} e.

Definition bind {A B : Type} (r : result A) (k : A -> result B) : result B :=
  match r with
  | Ok a => k a
  | Raise e => Raise e
  end.

(** [float(z)] for integers inside the binary64 range: the nearest float,
    ties to even. *)
Definition Z2F (z : Z) : float :=
  SF2Prim (binary_normalize prec emax z 0 false).

(** The least integer magnitude that rounds to infinity:
    [DBL_MAX + ulp/2 = 2^1024 - 2^970]. *)
Definition float_overflow : Z := 2 ^ 1024 - 2 ^ 970.

(** Conversion of an [int] operand, as [PyLong_AsDouble] does it. *)
Definition float_of_int (z : Z) : result float :=
  if Z.abs z <? float_overflow then Ok (Z2F z) else Raise OverflowError.

(** [z * f], [f * z] and [z + f] with an [int] [z] and a [float] [f]: the
    int is converted, then the float operation applies.  Where the int is a
    literal ([2 * padding_x], [plaque_width / 2]) the model writes the float
    it converts to ([2], that is 2.0) and needs none of these. *)
Definition mul_int_float (z : Z) (f : float) : result float :=
  match float_of_int z with
  | Ok zf => Ok (zf * f)%float
  | Raise e => Raise e
  end.

Definition mul_float_int (f : float) (z : Z) : result float :=
  match float_of_int z with
  | Ok zf => Ok (f * zf)%float
  | Raise e => Raise e
  end.

Definition add_int_float (z : Z) (f : float) : result float :=
  match float_of_int z with
  | Ok zf => Ok (zf + f)%float
  | Raise e => Raise e
  end.

(** [min(a, b)] on floats: the first argument unless the second is smaller. *)
Definition min (a b : float) : float :=
  if PrimFloat.ltb b a then b else a.

(** [max(a, b)] on ints: the first argument unless the second is larger. *)
Definition max (a b : Z) : Z :=
  if a <? b then b else a.

Definition len (s : string) : Z := Z.of_nat (String.length s).

(** Truth value of an [Optional[str]]: [None] and the empty string are
    false. *)
Definition truthy (o : option string) : bool :=
  match o with
  | None => false
  | Some s => negb (String.eqb s "")
  end.

(** [o or ""]. *)
Definition or_empty (o : option string) : string :=
  match o with
  | None => ""
  | Some s => if String.eqb s "" then "" else s
  end.

(** The [str] behind an [Optional[str]] that the code has tested to be
    truthy. *)
Definition str (o : option string) : string :=
  match o with
  | None => ""
  | Some s => s
  end.

(** [range(n)]. *)
Definition range (n : Z) : list Z :=
  map Z.of_nat (seq 0 (Z.to_nat n)).

(** [l[i]], with Python's negative indices. *)
Definition index {A : Type} (l : list A) (i : Z) : result A :=
  let n := Z.of_nat (List.length l) in
  let j := if i <? 0 then i + n else i in
  if (0 <=? j) && (j <? n) then
    match nth_error l (Z.to_nat j) with
    | Some a => Ok a
    | None => Raise IndexError
    end
  else Raise IndexError.

(** Float classes used in the statements below: neither NaN nor an
    infinity; the negative zero. *)
Definition finite (w : float) : bool :=
  match classify w with
  | NaN | PInf | NInf => false
  | _ => true
  end.

Definition neg_zero (x : float) : bool :=
  match classify x with
  | NZero => true
  | _ => false
  end.

(** A [for] loop over [l] that threads the loop state [s] and stops at the
    first exception. *)
Fixpoint for_each {A S : Type} (l : list A) (body : A -> S -> result S)
         (s : S) : result S :=
  match l with
  | [] => Ok s
  | a :: l' => bind (body a s) (for_each l' body)
  end.

End Py.

Import Py.

Declare Scope py_scope.
Delimit Scope py_scope with py.
Notation "x <- c1 ;; c2" := (bind c1 (fun x => c2))
  (at level 61, c1 at next level, right associativity) : py_scope.
Local Open Scope py_scope.

(** ** The document model (the part of svg.py the generators use) *)

Module svg.

(** An attribute value: a bare int, a bare float, or a length in mm
    ([svg.mm(v)]). *)
Inductive value : Type :=
| Int (z : Z)
| Float (f : float)
| mm (f : float).

Record TSpan : Type := mkTSpan
  { tspan_x : value;
    tspan_dy : value;
    tspan_text : option string }.

Record Text : Type := mkText
  { text_x : value;
    text_y : value;
    text_stroke : option string;
    text_fill : string;
    text_font_family : string;
    text_font_size : Z;
    text_anchor : string;
    dominant_baseline : string;
    text_elements : option (list (option TSpan));
    text_text : option string }.

Record Rect : Type := mkRect
  { rect_x : value;
    rect_y : value;
    rect_width : value;
    rect_height : value;
    rect_fill : string;
    rect_stroke : string }.

(** The path data of the plaque's arcs.  The source formats them into a
    string, ["M x y A rx ry rot large sweep x' y'"]; the model keeps the
    numbers. *)
Inductive PathCmd : Type :=
| M (x y : float)
| A (rx ry : float) (rot large sweep : Z) (x y : float).

Record Path : Type := mkPath
  { path_d : list PathCmd;
    path_fill : string;
    path_stroke : string }.

Inductive Element : Type :=
| ERect (r : Rect)
| EPath (p : Path)
| EText (t : Text).

Record SVG : Type := mkSVG
  { svg_width : value;
    svg_height : value;
    svg_elements : list Element }.

(** The text elements of a document, in document order. *)
Fixpoint texts (es : list Element) : list Text :=
  match es with
  | [] => []
  | EText t :: es' => t :: texts es'
  | _ :: es' => texts es'
  end.

(** The TSpans a text element really holds ([None] entries dropped). *)
Fixpoint tspans (l : list (option TSpan)) : list TSpan :=
  match l with
  | [] => []
  | Some t :: l' => t :: tspans l'
  | None :: l' => tspans l'
  end.

End svg.

Import svg.

(** ** corner_label_generator.py *)

Module corner_label_generator.

Definition create_svg_corners (width height x y : float) (fontSize : Z)
    (text_anchor dominant_baseline : string) (lower_corner : bool)
    (label_line1 : string) (label_line2 : option string) : result SVG :=
  let garamond_with_serifs := "Georgia" in
  if lower_corner && truthy label_line2 then
    let fontSize := fontSize - 2 in
    fs <- float_of_int fontSize ;;
    Ok (mkSVG (mm width) (mm height)
          [ ERect (mkRect (Int 0) (Int 0) (mm width) (mm height) "white" "red");
            EText (mkText (mm x) (mm y) (Some "none") "blue"
                     garamond_with_serifs fontSize
                     text_anchor dominant_baseline
                     (Some [ Some (mkTSpan (mm x) (Float 1.2) label_line2);
                             Some (mkTSpan (mm x) (Float (-1.2 * fs))
                                     (Some label_line1)) ])
                     None) ])
  else
    let fontSize := if truthy label_line2 then fontSize - 2 else fontSize in
    second <- (if truthy label_line2
               then fs <- float_of_int fontSize ;;
                    Ok (Some (mkTSpan (mm x) (Float (1.2 * fs)) label_line2))
               else Ok None) ;;
    Ok (mkSVG (mm width) (mm height)
          [ ERect (mkRect (Int 0) (Int 0) (mm width) (mm height) "white" "red");
            EText (mkText (mm x) (mm y) (Some "none") "blue"
                     garamond_with_serifs fontSize
                     text_anchor dominant_baseline
                     (Some [ Some (mkTSpan (mm x) (Float 1.2)
                                     (Some label_line1));
                             second ])
                     None) ]).

Definition names : list string :=
  ["_topLeft.svg"; "_topRight.svg"; "_bottomLeft.svg"; "_bottomRight.svg"].

(** The body of the loop of [writeSvg] at index [i]: the document of that
    corner. *)
Definition svg_content (i : Z) (width height x_edge_distance
    y_edge_distance : float) (fontSize : Z) (label_line1 : string)
    (label_line2 : option string) : result SVG :=
  if i =? 0 then
    create_svg_corners width height x_edge_distance y_edge_distance fontSize
      "start" "hanging" false label_line1 label_line2
  else if i =? 1 then
    create_svg_corners width height (width - x_edge_distance)
      y_edge_distance fontSize
      "end" "hanging" false label_line1 label_line2
  else if i =? 2 then
    create_svg_corners width height x_edge_distance
      (height - y_edge_distance) fontSize
      "start" "central" true label_line1 label_line2
  else
    create_svg_corners width height (width - x_edge_distance)
      (height - y_edge_distance) fontSize
      "end" "central" true label_line1 label_line2.

(** [writeSvg]: the files written, as (file name, document) pairs in the
    order of the loop. *)
Definition writeSvg (file_name : string) (width height x_percent_from_edge
    y_percent_from_edge : float) (fontSize : Z) (label_line1 : string)
    (label_line2 : option string) : result (list (string * SVG)) :=
  let x_edge_distance := (Py.min width height * x_percent_from_edge)%float in
  let y_edge_distance := (Py.min width height * y_percent_from_edge)%float in
  for_each (range 4)
    (fun i written =>
       suffix <- index names i ;;
       let test_file_name := (file_name ++ suffix)%string in
       doc <- svg_content i width height x_edge_distance y_edge_distance
                fontSize label_line1 label_line2 ;;
       Ok (written ++ [(test_file_name, doc)])%list)
    [].

(** *** The interactive script around [writeSvg]

    The script reads its parameters from standard input.  Standard input is
    the list of lines still to be read; [input()] takes the first one and
    raises [EOFError] when there is none.  Python's [int(s)] and [float(s)]
    are parameters of the model: they return [None] where Python raises
    [ValueError].  The prompts printed are not modelled. *)

(** The tuple [get_values_from_input] returns:
    (width, height, x_percent_from_edge, y_percent_from_edge, fontSize). *)
Definition values : Type := (float * float * float * float * Z)%type.

(** [input_mapping].  The signature declares widths and heights floats; the
    int literal 381 of the source is the float it equals. *)
Definition input_mapping : list (Z * values) :=
  [ (0, (139.7%float, 203.2%float, 0.12%float, 0.12%float, 28));
    (1, (203.2%float, 139.7%float, 0.12%float, 0.12%float, 28));
    (2, (203.2%float, 279.4%float, 0.12%float, 0.12%float, 34));
    (3, (279.4%float, 203.2%float, 0.12%float, 0.12%float, 34));
    (4, (279.4%float, 381%float, 0.10%float, 0.10%float, 40));
    (5, (381%float, 279.4%float, 0.10%float, 0.10%float, 40)) ].

(** [d[k]] on a dict written as its list of items; [None] where [k in d] is
    false. *)
Fixpoint lookup {V : Type} (k : Z) (d : list (Z * V)) : option V :=
  match d with
  | [] => None
  | (k', v) :: d' => if k =? k' then Some v else lookup k d'
  end.

Inductive script_exn : Type :=
| ValueError
| EOFError
| PyError (e : exn).

(** A computation that reads lines: from the lines left to an exception, or
    to a value and the lines left after it. *)
Definition io (A : Type) : Type :=
  list string -> script_exn + (A * list string).

Definition io_ret {A : Type} (a : A) : io A :=
  fun stdin => inr (a, stdin).

Definition io_raise {A : Type} (e : script_exn) : io A :=
  fun _ => inl e.

Definition io_bind {A B : Type} (c : io A) (k : A -> io B) : io B :=
  fun stdin =>
    match c stdin with
    | inl e => inl e
    | inr (a, rest) => k a rest
    end.

Definition input : io string :=
  fun stdin =>
    match stdin with
    | [] => inl EOFError
    | line :: rest => inr (line, rest)
    end.

Definition io_of_option {A : Type} (o : option A) : io A :=
  match o with
  | Some a => io_ret a
  | None => io_raise ValueError
  end.

Definition io_of_result {A : Type} (r : result A) : io A :=
  match r with
  | Ok a => io_ret a
  | Raise e => io_raise (PyError e)
  end.

Section Script.

Variable int_of_str : string -> option Z.
Variable float_of_str : string -> option float.
Variable path_join : string -> string -> string.

Definition get_values_from_input : io values :=
  io_bind input (fun line =>
  io_bind (io_of_option (int_of_str line)) (fun user_input =>
  if user_input =? 6 then
    io_bind input (fun l1 =>
    io_bind (io_of_option (float_of_str l1)) (fun width =>
    io_bind input (fun l2 =>
    io_bind (io_of_option (float_of_str l2)) (fun height =>
    io_bind input (fun l3 =>
    io_bind (io_of_option (float_of_str l3)) (fun x_percent_from_edge =>
    io_bind input (fun l4 =>
    io_bind (io_of_option (float_of_str l4)) (fun y_percent_from_edge =>
    io_bind input (fun l5 =>
    io_bind (io_of_option (int_of_str l5)) (fun fontSize =>
    io_ret (width, height, x_percent_from_edge, y_percent_from_edge,
            fontSize)))))))))))
  else
    match lookup user_input input_mapping with
    | Some v => io_ret v
    | None => io_raise ValueError
    end)).

Definition get_labels_from_input : io (string * option string) :=
  io_bind input (fun label1 =>
  io_bind input (fun label2_input =>
  let label2 :=
    if negb (String.eqb label2_input "0") then Some label2_input else None in
  io_ret (label1, label2))).

(** The body of the script: the output folder and the files [writeSvg]
    writes into it. *)
Definition script : io (string * list (string * SVG)) :=
  io_bind get_values_from_input (fun values =>
  let '(width, height, x_percent_from_edge, y_percent_from_edge, fontSize) :=
    values in
  io_bind get_labels_from_input (fun labels =>
  let '(label1, label2) := labels in
  if truthy label2 then
    let output_folder :=
      path_join "C:\Users\maxim\Documents\Treeline\PNG\inkscape"
        (label1 ++ str label2)%string in
    io_bind (io_of_result
               (writeSvg (label1 ++ str label2)%string width height
                  x_percent_from_edge y_percent_from_edge fontSize
                  label1 label2))
      (fun files => io_ret (output_folder, files))
  else
    let output_folder :=
      path_join "C:\Users\maxim\Documents\Treeline\PNG\inkscape" label1 in
    io_bind (io_of_result
               (writeSvg label1 width height
                  x_percent_from_edge y_percent_from_edge fontSize
                  label1 None))
      (fun files => io_ret (output_folder, files)))).

End Script.

End corner_label_generator.

(** ** corner_label_generator_grid2.py *)

Module corner_label_generator_grid2.

Definition colorArray : list string := ["#0000FF"; "#0096FF"; "#00FFFF"].

(** The loop state of [create_svg_corners_grid]: the running [colorIndex]
    and the [elements] appended so far. *)
Definition grid_state : Type := (Z * list Element)%type.

(** One iteration of the inner loop: the label of cell ([row], [column]). *)
Definition grid_cell (width height x y : float) (fontSize : Z)
    (text_anchor dominant_baseline : string) (lower_corner : bool)
    (label_line1 : string) (label_line2 : option string)
    (column row : Z) (st : grid_state) : result grid_state :=
  let garamond_with_serifs := "Georgia" in
  let '(colorIndex, elements) := st in
  column_f <- float_of_int column ;;
  let label_x := (x + width * column_f)%float in
  row_f <- float_of_int row ;;
  let label_y := (y + height * row_f)%float in
  text_element <-
    (if lower_corner && truthy label_line2 then
       fill <- index colorArray colorIndex ;;
       fs <- float_of_int fontSize ;;
       Ok (mkText (mm label_x) (mm label_y) (Some "none") fill
             garamond_with_serifs fontSize text_anchor dominant_baseline
             (Some [ Some (mkTSpan (mm label_x) (Float 1.2) label_line2);
                     Some (mkTSpan (mm label_x) (Float (-1.2 * fs))
                             (Some label_line1)) ])
             None)
     else
       fill <- index colorArray colorIndex ;;
       second <- (if truthy label_line2
                  then fs <- float_of_int fontSize ;;
                       Ok (Some (mkTSpan (mm label_x) (Float (1.2 * fs))
                                   label_line2))
                  else Ok None) ;;
       Ok (mkText (mm label_x) (mm label_y) (Some "none") fill
             garamond_with_serifs fontSize text_anchor dominant_baseline
             (Some [ Some (mkTSpan (mm label_x) (Float 1.2)
                             (Some label_line1));
                     second ])
             None)) ;;
  let colorIndex := colorIndex + 1 in
  Ok (colorIndex, (elements ++ [EText text_element])%list).

Definition create_svg_corners_grid (rows columns : Z)
    (width height x y : float) (fontSize : Z)
    (text_anchor dominant_baseline : string) (lower_corner : bool)
    (label_line1 : string) (label_line2 : option string) : result SVG :=
  board_width <- mul_float_int width columns ;;
  board_height <- mul_float_int height rows ;;
  let elements :=
    [ ERect (mkRect (Int 0) (Int 0) (mm board_width) (mm board_height)
               "white" "red") ] in
  let colorIndex := 0 in
  st <- for_each (range columns)
          (fun column =>
             for_each (range rows)
               (grid_cell width height x y fontSize text_anchor
                  dominant_baseline lower_corner label_line1 label_line2
                  column))
          (colorIndex, elements) ;;
  Ok (mkSVG (mm board_width) (mm board_height) (snd st)).

Definition names : list string :=
  ["_topLeftGrid.svg"; "_topRightGrid.svg"; "_bottomLeftGrid.svg";
   "_bottomRightGrid.svg"].

(** The body of the loop of [writeSvg] at index [i]. *)
Definition svg_content (i : Z) (rows columns : Z) (width height x_start
    y_start : float) (fontSize : Z) (label_line1 : string)
    (label_line2 : option string) : result SVG :=
  if i =? 0 then
    create_svg_corners_grid rows columns width height x_start y_start
      fontSize "start" "text-top" false label_line1 label_line2
  else if i =? 1 then
    create_svg_corners_grid rows columns width height (width - x_start)
      y_start fontSize "end" "text-top" false label_line1 label_line2
  else if i =? 2 then
    create_svg_corners_grid rows columns width height x_start
      (height - y_start) fontSize "start" "text-bottom" true
      label_line1 label_line2
  else
    create_svg_corners_grid rows columns width height (width - x_start)
      (height - y_start) fontSize "end" "text-bottom" true
      label_line1 label_line2.

(** [writeSvg]; the source gives [x_percent_from_edge] and
    [y_percent_from_edge] the default 0.12. *)
Definition writeSvg (file_name : string) (rows columns : Z)
    (width height : float) (fontSize : Z) (label_line1 : string)
    (label_line2 : option string)
    (x_percent_from_edge y_percent_from_edge : float)
  : result (list (string * SVG)) :=
  let x_start := (Py.min width height * x_percent_from_edge)%float in
  let y_start := (Py.min width height * y_percent_from_edge)%float in
  for_each (range 4)
    (fun i written =>
       suffix <- index names i ;;
       let test_file_name := (file_name ++ suffix)%string in
       doc <- svg_content i rows columns width height x_start y_start
                fontSize label_line1 label_line2 ;;
       Ok (written ++ [(test_file_name, doc)])%list)
    [].

End corner_label_generator_grid2.

(** ** plaqueGenerator.py *)

Module plaqueGenerator.

Definition descender_characters : list ascii :=
  ["g"; "j"; "p"; "q"; "y"]%char.

Definition has_descenders (label_line : string) : bool :=
  existsb (fun char => existsb (Ascii.eqb char) descender_characters)
    (list_ascii_of_string label_line).

(** The local variables of [calculate_plaque_dimensions] when it returns. *)
Record plaque_locals : Type := mkLocals
  { num_lines : Z;
    max_label_length : Z;
    text_width : float;
    text_height : Z;
    padding_x : float;
    padding_y : float;
    plaque_width : float;
    plaque_height : float }.

Definition calculate_plaque_dimensions_locals (fontSize : Z)
    (label_line1 : string) (label_line2 : option string)
  : result plaque_locals :=
  let num_lines := match label_line2 with None => 1 | Some _ => 2 end in
  let max_label_length :=
    Py.max (len label_line1) (len (or_empty label_line2)) in
  text_width <- mul_int_float (max_label_length * fontSize) 0.55 ;;
  let text_height := fontSize * num_lines in
  padding_x <- mul_int_float fontSize 0.1 ;;
  padding_y <- mul_int_float fontSize 0.1 ;;
  let plaque_width := (text_width + 2 * padding_x)%float in
  plaque_height <- add_int_float text_height (2 * padding_y)%float ;;
  Ok (mkLocals num_lines max_label_length text_width text_height
        padding_x padding_y plaque_width plaque_height).

Definition calculate_plaque_dimensions (fontSize : Z)
    (label_line1 : string) (label_line2 : option string)
  : result (float * float) :=
  l <- calculate_plaque_dimensions_locals fontSize label_line1 label_line2 ;;
  Ok (plaque_width l, plaque_height l).

Definition create_svg_plaque (fontSize : Z) (label_line1 : string)
    (label_line2 : option string) : result SVG :=
  let garamond_with_serifs := "Garamond, serif" in
  dims <- calculate_plaque_dimensions fontSize label_line1 label_line2 ;;
  let '(plaque_width, plaque_height) := dims in
  let artboard_width := (plaque_width * 1.05)%float in
  let artboard_height := (plaque_height * 1.05)%float in
  let plaque_x := ((artboard_width - plaque_width) / 2)%float in
  let plaque_y := ((artboard_height - plaque_height) / 2)%float in
  let corner_radius := (plaque_height * 0.20)%float in
  let arc_top_left :=
    mkPath [ M plaque_x (plaque_y + corner_radius);
             A corner_radius corner_radius 0 0 0
               (plaque_x + corner_radius) plaque_y ]
           "none" "red" in
  let arc_top_right :=
    mkPath [ M (plaque_x + plaque_width - corner_radius) plaque_y;
             A corner_radius corner_radius 0 0 0
               (plaque_x + plaque_width) (plaque_y + corner_radius) ]
           "none" "red" in
  let arc_bottom_left :=
    mkPath [ M (plaque_x + corner_radius) (plaque_y + plaque_height);
             A corner_radius corner_radius 0 0 0
               plaque_x (plaque_y + plaque_height - corner_radius) ]
           "none" "red" in
  let arc_bottom_right :=
    mkPath [ M (plaque_x + plaque_width)
               (plaque_y + plaque_height - corner_radius);
             A corner_radius corner_radius 0 0 0
               (plaque_x + plaque_width - corner_radius)
               (plaque_y + plaque_height) ]
           "none" "red" in
  let rectangle :=
    mkRect (Float plaque_x) (Float plaque_y) (Float plaque_width)
      (Float plaque_height) "none" "red" in
  let elements :=
    [ ERect rectangle; EPath arc_top_left; EPath arc_top_right;
      EPath arc_bottom_left; EPath arc_bottom_right ] in
  if truthy label_line2 then
    let y_offset :=
      (if negb (has_descenders (str label_line2)) then 0.45 else 0.5)%float in
    off <- mul_float_int y_offset fontSize ;;
    let text_element :=
      mkText (Float (plaque_x + plaque_width / 2))
        (Float (plaque_y + 0.85 * (plaque_height / 2 - off)))
        None "blue" garamond_with_serifs fontSize "middle" "middle"
        (Some [ Some (mkTSpan (Float (plaque_x + plaque_width / 2))
                        (Float 1.2) (Some label_line1));
                (if truthy label_line2
                 then Some (mkTSpan (Float (plaque_x + plaque_width / 2))
                              (Int (1 * fontSize)) label_line2)
                 else None) ])
        None in
    Ok (mkSVG (Float artboard_width) (Float artboard_height)
          (elements ++ [EText text_element])%list)
  else
    let y_offset :=
      (if has_descenders label_line1 then 0.05 else 0.1)%float in
    off <- mul_float_int y_offset fontSize ;;
    let text_element :=
      mkText (Float (plaque_x + plaque_width / 2))
        (Float (plaque_y + 0.85 * (plaque_height / 2 + off)))
        None "blue" garamond_with_serifs fontSize "middle" "middle"
        None (Some label_line1) in
    Ok (mkSVG (Float artboard_width) (Float artboard_height)
          (elements ++ [EText text_element])%list).

(** *** [write_svg_plaque]

    What the function does to the outside, in order: it opens the SVG file
    for writing (which creates or empties it), writes the document, and asks
    cairosvg for the PNG.  [os.path.join] and [os.path.splitext] are
    parameters of the model. *)

Inductive effect : Type :=
| FileOpen (path : string)
| FileWrite (path : string) (content : SVG)
| Svg2png (url write_to : string) (dpi : Z)
    (output_width output_height : float).

Section WritePlaque.

Variable path_join : string -> string -> string.
Variable path_splitext : string -> string * string.

(** The effects performed, and how the call ends. *)
Definition write_svg_plaque (output_folder file_name : string)
    (fontSize : Z) (label_line1 : string) (label_line2 : option string)
  : list effect * result unit :=
  let svg_file_path :=
    path_join output_folder (file_name ++ "_plaque.svg")%string in
  let png_file_path := (fst (path_splitext svg_file_path) ++ ".png")%string in
  match create_svg_plaque fontSize label_line1 label_line2 with
  | Raise e => ([FileOpen svg_file_path], Raise e)
  | Ok doc =>
      match calculate_plaque_dimensions fontSize label_line1 label_line2 with
      | Raise e =>
          ([FileOpen svg_file_path; FileWrite svg_file_path doc], Raise e)
      | Ok (plaque_width, plaque_height) =>
          let artboard_width := (plaque_width * 1.05)%float in
          let artboard_height := (plaque_height * 1.05)%float in
          ([ FileOpen svg_file_path; FileWrite svg_file_path doc;
             Svg2png svg_file_path png_file_path 96
               artboard_width artboard_height ],
           Ok tt)
      end
  end.

End WritePlaque.

End plaqueGenerator.

(** ** The specification's vocabulary

    Definitions written from the words of the specification, to be compared
    with the code above. *)

Module Spec.

Inductive CornerVariant : Type :=
| TopLeft
| TopRight
| BottomLeft
| BottomRight.

(** The position of a variant in the generators' loop over the four
    corners (the order of their [names]). *)
Definition variant_index (v : CornerVariant) : Z :=
  match v with
  | TopLeft => 0
  | TopRight => 1
  | BottomLeft => 2
  | BottomRight => 3
  end.

(** [edgeDistance = min(width, height) * insetFraction]. *)
Definition edgeDistance (width height insetFraction : float) : float :=
  (Py.min width height * insetFraction)%float.

(** Left variants use [x = edgeDistance], right variants
    [x = width - edgeDistance]; top variants use [y = edgeDistance], bottom
    variants [y = height - edgeDistance]. *)
Definition anchor (v : CornerVariant) (width height d_x d_y : float)
  : float * float :=
  match v with
  | TopLeft => (d_x, d_y)
  | TopRight => ((width - d_x)%float, d_y)
  | BottomLeft => (d_x, (height - d_y)%float)
  | BottomRight => ((width - d_x)%float, (height - d_y)%float)
  end.

(** Table 4.1. *)
Definition textAnchor (v : CornerVariant) : string :=
  match v with
  | TopLeft | BottomLeft => "start"
  | TopRight | BottomRight => "end"
  end.

Definition baseline (v : CornerVariant) : string :=
  match v with
  | TopLeft | TopRight => "hanging"
  | BottomLeft | BottomRight => "central"
  end.

Definition isLowerCorner (v : CornerVariant) : bool :=
  match v with
  | TopLeft | TopRight => false
  | BottomLeft | BottomRight => true
  end.

(** A second line exists when [line2] is given and not empty. *)
Definition two_line (line2 : option string) : bool := truthy line2.

(** The effective font size of the corner engines: the nominal size minus 2
    for a two-line label. *)
Definition effectiveFontSize (nominalFontSize : Z) (line2 : option string)
  : Z :=
  if two_line line2 then nominalFontSize - 2 else nominalFontSize.

(** The two-line text-offset policy of 4.1, as the (dy, text) pairs of the
    text run in emission order.  [fs] is the effective font size as a
    float. *)
Definition cornerTextRun (isLower : bool) (fs : float) (line1 : string)
    (line2 : option string) : list (value * option string) :=
  if isLower && two_line line2 then
    [ (Float 1.2, line2); (Float (-1.2 * fs), Some line1) ]
  else if two_line line2 then
    [ (Float 1.2, Some line1); (Float (1.2 * fs), line2) ]
  else
    [ (Float 1.2, Some line1) ].

(** The (dy, text) pairs of a text element's TSpans. *)
Definition run_of (t : Text) : list (value * option string) :=
  match text_elements t with
  | Some l => map (fun s => (tspan_dy s, tspan_text s)) (tspans l)
  | None => []
  end.

(** The x attributes of a text element's TSpans. *)
Definition run_xs (t : Text) : list value :=
  match text_elements t with
  | Some l => map tspan_x (tspans l)
  | None => []
  end.

(** A line has descenders if it contains any of g, j, p, q, y. *)
Definition contains_descender (s : string) : Prop :=
  exists c : ascii,
    In c (list_ascii_of_string s) /\
    In c ["g"; "j"; "p"; "q"; "y"]%char.

(** Plaque dimensions (4.3).  [textWidth = max(len(line1), len(line2 or ""))
    * fontSize * 0.55]: the product of the two ints, as a float, times
    0.55. *)
Definition maxLabelLength (line1 : string) (line2 : option string) : Z :=
  Z.max (len line1) (len (or_empty line2)).

Definition textWidth (fontSize : Z) (line1 : string) (line2 : option string)
  : float :=
  (Z2F (maxLabelLength line1 line2 * fontSize) * 0.55)%float.

Definition numLines (line2 : option string) : Z :=
  match line2 with
  | None => 1
  | Some _ => 2
  end.

Definition textHeight (fontSize : Z) (line2 : option string) : Z :=
  fontSize * numLines line2.

Definition padding (fontSize : Z) : float := (Z2F fontSize * 0.1)%float.

Definition plaqueWidth (fontSize : Z) (line1 : string)
    (line2 : option string) : float :=
  (textWidth fontSize line1 line2 + 2 * padding fontSize)%float.

Definition plaqueHeight (fontSize : Z) (line2 : option string) : float :=
  (Z2F (textHeight fontSize line2) + 2 * padding fontSize)%float.

(** The artboard is the plaque scaled by 1.05, the plaque centered in it. *)
Definition artboard (plaque : float) : float := (plaque * 1.05)%float.

Definition plaqueOrigin (plaque : float) : float :=
  ((artboard plaque - plaque) / 2)%float.

(** Text placement on the plaque. *)
Definition yOffsetFactor (line1 : string) (line2 : option string) : float :=
  if two_line line2 then
    (if plaqueGenerator.has_descenders (str line2) then 0.5 else 0.45)%float
  else
    (if plaqueGenerator.has_descenders line1 then 0.05 else 0.1)%float.

Definition plaqueBaselineY (plaqueY plaqueHeight : float) (fontSize : Z)
    (line1 : string) (line2 : option string) : float :=
  if two_line line2 then
    (plaqueY +
     0.85 * (plaqueHeight / 2 - yOffsetFactor line1 line2 * Z2F fontSize))%float
  else
    (plaqueY +
     0.85 * (plaqueHeight / 2 +
             yOffsetFactor line1 line2 * Z2F fontSize))%float.

Definition plaqueCenterX (plaqueX plaqueWidth : float) : float :=
  (plaqueX + plaqueWidth / 2)%float.

(** The invalid parameters of the error taxonomy (7): a non-positive
    dimension, an empty required label, a fraction outside (0, 1). *)
Definition invalid_parameter (width height xFraction yFraction : float)
    (line1 : string) : bool :=
  PrimFloat.leb width 0 || PrimFloat.leb height 0 ||
  String.eqb line1 "" ||
  negb (PrimFloat.ltb 0 xFraction && PrimFloat.ltb xFraction 1) ||
  negb (PrimFloat.ltb 0 yFraction && PrimFloat.ltb yFraction 1).

(** The geometry of a document: canvas size and, per text element, anchor
    point, text anchor, baseline mode, font size and text run. *)
Definition geometry (doc : SVG)
  : value * value *
    list (value * value * string * string * Z * list (value * option string)) :=
  (svg_width doc, svg_height doc,
   map (fun t => (text_x t, text_y t, text_anchor t, dominant_baseline t,
                  text_font_size t, run_of t))
     (texts (svg_elements doc))).

(** The baseline modes the grid engine passes for the four variants. *)
Definition gridBaseline (v : CornerVariant) : string :=
  match v with
  | TopLeft | TopRight => "text-top"
  | BottomLeft | BottomRight => "text-bottom"
  end.

(** The sizes for which every int the plaque engine converts is within the
    range of a float. *)
Definition plaque_convertible (fontSize : Z) (line1 : string)
    (line2 : option string) : Prop :=
  Z.abs fontSize * Z.max 2 (maxLabelLength line1 line2) < float_overflow.

End Spec.

(** ** Vocabulary for the grid and for the plaque outline *)

Module Layout.

(** The cells of a grid in the order the loops of [create_svg_corners_grid]
    visit them: column by column, the rows of a column from the top; each as
    (column, row). *)
Definition grid_cells (rows columns : Z) : list (Z * Z) :=
  flat_map (fun column => map (fun row => (column, row)) (range rows))
    (range columns).

(** The anchor of the label of a cell. *)
Definition cell_anchor (width height x y : float) (cell : Z * Z)
  : value * value :=
  (mm (x + width * Z2F (fst cell)), mm (y + height * Z2F (snd cell))).

Definition text_xy (t : Text) : value * value := (text_x t, text_y t).







End Layout.

Import corner_label_generator.
Import plaqueGenerator.

(** * Properties *)

(** ** Descender detection *)

Lemma descender_characters_spec (c : ascii) :
  existsb (Ascii.eqb c) descender_characters = true <->
  In c ["g"; "j"; "p"; "q"; "y"]%char.
Proof.
  unfold descender_characters. rewrite existsb_exists. split.
  - intros [d [Hin Heq]]. apply Ascii.eqb_eq in Heq. now subst.
  - intros Hin. exists c. split; [assumption | apply Ascii.eqb_refl].
Qed.

(** C9: [has_descenders s] is true exactly when [s] contains one of the
    characters g, j, p, q, y; it is false on "Sisters, Kansas" and true on
    "Goopy". *)
Theorem has_descenders_iff :
  (forall s : string,
      has_descenders s = true <-> Spec.contains_descender s) /\
  has_descenders "Sisters, Kansas" = false /\
  has_descenders "Goopy" = true.
Proof.
  split; [| split; reflexivity].
  intros s. unfold has_descenders, Spec.contains_descender.
  rewrite existsb_exists. split.
  - intros [c [Hin Hc]]. exists c. split; [assumption |].
    now apply descender_characters_spec.
  - intros [c [Hin Hc]]. exists c. split; [assumption |].
    now apply descender_characters_spec.
Qed.

(** ** Conversions that succeed *)

Lemma float_of_int_ok (z : Z) :
  Z.abs z < float_overflow -> float_of_int z = Ok (Z2F z).
Proof.
  intros H. unfold float_of_int.
  apply Z.ltb_lt in H. now rewrite H.
Qed.

Lemma float_of_int_overflow (z : Z) :
  float_overflow <= Z.abs z -> float_of_int z = Raise OverflowError.
Proof.
  intros H. unfold float_of_int.
  apply Z.ltb_ge in H. now rewrite H.
Qed.

(** [float_overflow] is where rounding to nearest first reaches infinity:
    one below it still converts to the largest finite float. *)
Lemma float_overflow_threshold :
  Z2F float_overflow = infinity /\
  Z2F (- float_overflow) = neg_infinity /\
  finite (Z2F (float_overflow - 1)) = true /\
  finite (Z2F (- (float_overflow - 1))) = true.
Proof. repeat split; vm_compute; reflexivity. Qed.

(** ** The corner engine *)

(** A two-line label whose font size does not convert raises
    [OverflowError]: the hypothesis of the statements below is needed. *)
Lemma create_svg_corners_overflow
    (width height x y : float) (fontSize : Z)
    (text_anchor dominant_baseline : string) (lower_corner : bool)
    (label_line1 : string) (label_line2 : option string) :
  Spec.two_line label_line2 = true ->
  float_overflow <= Z.abs (fontSize - 2) ->
  create_svg_corners width height x y fontSize text_anchor
    dominant_baseline lower_corner label_line1 label_line2
  = Raise OverflowError.
Proof.
  unfold Spec.two_line, create_svg_corners. intros Htwo Hbig.
  rewrite Htwo, (float_of_int_overflow _ Hbig).
  destruct lower_corner; reflexivity.
Qed.

Lemma create_svg_corners_shape
    (width height x y : float) (fontSize : Z)
    (text_anchor dominant_baseline : string) (lower_corner : bool)
    (label_line1 : string) (label_line2 : option string) :
  (Spec.two_line label_line2 = true ->
   Z.abs (fontSize - 2) < float_overflow) ->
  exists doc t,
    create_svg_corners width height x y fontSize text_anchor
      dominant_baseline lower_corner label_line1 label_line2 = Ok doc /\
    svg_width doc = mm width /\
    svg_height doc = mm height /\
    svg_elements doc =
      [ ERect (mkRect (Int 0) (Int 0) (mm width) (mm height) "white" "red");
        EText t ] /\
    text_x t = mm x /\
    text_y t = mm y /\
    svg.text_anchor t = text_anchor /\
    svg.dominant_baseline t = dominant_baseline /\
    text_font_size t = Spec.effectiveFontSize fontSize label_line2 /\
    Spec.run_of t =
      Spec.cornerTextRun lower_corner
        (Z2F (Spec.effectiveFontSize fontSize label_line2))
        label_line1 label_line2 /\
    Forall (fun tx => tx = text_x t) (Spec.run_xs t).
Proof.
  intros Hconv.
  unfold create_svg_corners, Spec.effectiveFontSize, Spec.cornerTextRun,
    Spec.two_line in *.
  destruct (truthy label_line2) eqn:Htwo.
  - rewrite (float_of_int_ok _ (Hconv eq_refl)).
    destruct lower_corner; cbn [andb bind];
      eexists; eexists; (split; [reflexivity |]);
      cbn; repeat split; repeat constructor.
  - rewrite andb_false_r. cbn [bind].
    eexists; eexists; (split; [reflexivity |]).
    cbn. repeat split; repeat constructor.
Qed.

(** The loop of [writeSvg] runs its body at 0, 1, 2, 3 and collects the four
    documents under the four file names. *)
Lemma writeSvg_unfold
    (file_name : string) (width height xf yf : float) (fontSize : Z)
    (label_line1 : string) (label_line2 : option string) :
  corner_label_generator.writeSvg file_name width height xf yf fontSize
    label_line1 label_line2 =
  (let d_x := Spec.edgeDistance width height xf in
   let d_y := Spec.edgeDistance width height yf in
   d0 <- corner_label_generator.svg_content 0 width height d_x d_y fontSize
           label_line1 label_line2 ;;
   d1 <- corner_label_generator.svg_content 1 width height d_x d_y fontSize
           label_line1 label_line2 ;;
   d2 <- corner_label_generator.svg_content 2 width height d_x d_y fontSize
           label_line1 label_line2 ;;
   d3 <- corner_label_generator.svg_content 3 width height d_x d_y fontSize
           label_line1 label_line2 ;;
   Ok [ ((file_name ++ "_topLeft.svg")%string, d0);
        ((file_name ++ "_topRight.svg")%string, d1);
        ((file_name ++ "_bottomLeft.svg")%string, d2);
        ((file_name ++ "_bottomRight.svg")%string, d3) ]).
Proof.
  unfold writeSvg, Spec.edgeDistance.
  change (range 4) with [0; 1; 2; 3].
  cbn [for_each bind].
  change (index names 0) with (Ok "_topLeft.svg").
  change (index names 1) with (Ok "_topRight.svg").
  change (index names 2) with (Ok "_bottomLeft.svg").
  change (index names 3) with (Ok "_bottomRight.svg").
  cbn [bind].
  destruct (corner_label_generator.svg_content 0 _ _ _ _ _ _ _);
      [cbn [bind app] | reflexivity].
  destruct (corner_label_generator.svg_content 1 _ _ _ _ _ _ _);
      [cbn [bind app] | reflexivity].
  destruct (corner_label_generator.svg_content 2 _ _ _ _ _ _ _);
      [cbn [bind app] | reflexivity].
  destruct (corner_label_generator.svg_content 3 _ _ _ _ _ _ _); reflexivity.
Qed.

(** The call [writeSvg] makes for a variant is the one Table 4.1 and the
    anchor rule describe. *)
Lemma svg_content_variant
    (v : Spec.CornerVariant) (width height d_x d_y : float) (fontSize : Z)
    (label_line1 : string) (label_line2 : option string) :
  corner_label_generator.svg_content (Spec.variant_index v)
    width height d_x d_y fontSize
    label_line1 label_line2 =
  create_svg_corners width height
    (fst (Spec.anchor v width height d_x d_y))
    (snd (Spec.anchor v width height d_x d_y))
    fontSize (Spec.textAnchor v) (Spec.baseline v) (Spec.isLowerCorner v)
    label_line1 label_line2.
Proof. destruct v; reflexivity. Qed.

(** With a font size that converts, [writeSvg] writes four files, one per
    index of its loop. *)
Lemma writeSvg_ok
    (file_name : string) (width height xFrac yFrac : float) (fontSize : Z)
    (label_line1 : string) (label_line2 : option string) :
  (Spec.two_line label_line2 = true ->
   Z.abs (fontSize - 2) < float_overflow) ->
  let d_x := (Py.min width height * xFrac)%float in
  let d_y := (Py.min width height * yFrac)%float in
  exists d0 d1 d2 d3,
    corner_label_generator.svg_content 0 width height d_x d_y fontSize
      label_line1 label_line2
      = Ok d0 /\
    corner_label_generator.svg_content 1 width height d_x d_y fontSize
      label_line1 label_line2
      = Ok d1 /\
    corner_label_generator.svg_content 2 width height d_x d_y fontSize
      label_line1 label_line2
      = Ok d2 /\
    corner_label_generator.svg_content 3 width height d_x d_y fontSize
      label_line1 label_line2
      = Ok d3 /\
    corner_label_generator.writeSvg file_name width height xFrac yFrac fontSize
      label_line1 label_line2 =
    Ok [ ((file_name ++ "_topLeft.svg")%string, d0);
         ((file_name ++ "_topRight.svg")%string, d1);
         ((file_name ++ "_bottomLeft.svg")%string, d2);
         ((file_name ++ "_bottomRight.svg")%string, d3) ].
Proof.
  intros Hconv d_x d_y.
  assert (Hall : forall u : Spec.CornerVariant, exists doc,
             corner_label_generator.svg_content (Spec.variant_index u)
               width height d_x d_y fontSize
               label_line1 label_line2 = Ok doc).
  { intros u. rewrite svg_content_variant.
    destruct (create_svg_corners_shape width height
                (fst (Spec.anchor u width height d_x d_y))
                (snd (Spec.anchor u width height d_x d_y))
                fontSize (Spec.textAnchor u) (Spec.baseline u)
                (Spec.isLowerCorner u) label_line1 label_line2 Hconv)
      as [doc [_ [Hdoc _]]].
    now exists doc. }
  destruct (Hall Spec.TopLeft) as [d0 H0].
  destruct (Hall Spec.TopRight) as [d1 H1].
  destruct (Hall Spec.BottomLeft) as [d2 H2].
  destruct (Hall Spec.BottomRight) as [d3 H3].
  cbn [Spec.variant_index] in H0, H1, H2, H3.
  exists d0, d1, d2, d3. repeat (split; [assumption |]).
  rewrite writeSvg_unfold. cbv zeta.
  unfold Spec.edgeDistance. fold d_x d_y.
  rewrite H0, H1, H2, H3. reflexivity.
Qed.

(** C2: in a lower corner with a second line, line 2 comes first at dy 1.2
    and line 1 follows at dy -1.2 * (fontSize - 2); otherwise line 1 is at
    dy 1.2 and line 2, if there is one, follows at dy 1.2 * (fontSize - 2);
    with two lines the font size rendered and used in the spacing is
    fontSize - 2, with one line it is fontSize.  Every TSpan repeats the x of
    its text element. *)
Theorem corner_two_line_policy
    (width height x y : float) (fontSize : Z)
    (text_anchor dominant_baseline : string) (lower_corner : bool)
    (label_line1 : string) (label_line2 : option string)
    (Hconv : Spec.two_line label_line2 = true ->
             Z.abs (fontSize - 2) < float_overflow) :
  exists doc t,
    create_svg_corners width height x y fontSize text_anchor
      dominant_baseline lower_corner label_line1 label_line2 = Ok doc /\
    texts (svg_elements doc) = [t] /\
    text_font_size t = Spec.effectiveFontSize fontSize label_line2 /\
    Spec.run_of t =
      Spec.cornerTextRun lower_corner
        (Z2F (Spec.effectiveFontSize fontSize label_line2))
        label_line1 label_line2 /\
    Forall (fun tx => tx = text_x t) (Spec.run_xs t).
Proof.
  destruct (create_svg_corners_shape width height x y fontSize text_anchor
              dominant_baseline lower_corner label_line1 label_line2 Hconv)
    as [doc [t [Hdoc [_ [_ [Hel [_ [_ [_ [_ [Hfs [Hrun Hxs]]]]]]]]]]]].
  exists doc, t. rewrite Hel. cbn [texts]. auto.
Qed.

Lemma corner_two_line_policy_witness :
  exists doc t,
    create_svg_corners 139.7 203.2 16.764 186.436 28 "start" "central" true
      "Broken Mountain" (Some "Sisters, Kansas") = Ok doc /\
    texts (svg_elements doc) = [t] /\
    text_font_size t = 26 /\
    Spec.run_of t =
      [ (Float 1.2, Some "Sisters, Kansas");
        (Float (-31.2), Some "Broken Mountain") ] /\
    Forall (fun tx => tx = text_x t) (Spec.run_xs t).
Proof.
  apply (corner_two_line_policy 139.7 203.2 16.764 186.436 28 "start"
           "central" true "Broken Mountain" (Some "Sisters, Kansas")).
  intros _. vm_compute. reflexivity.
Defined.

(** C1: the inset distances are min(width, height) times the x and the y
    fraction; the document [writeSvg] writes for a variant is the one
    [create_svg_corners] builds at that variant's anchor (left: d_x, right:
    width - d_x, top: d_y, bottom: height - d_y) with that variant's
    (textAnchor, baseline, isLowerCorner) of Table 4.1; the anchor, the text
    anchor and the baseline are attributes of its text element, and its text
    run follows the lower-corner flag. *)
Theorem corner_anchor_per_variant
    (v : Spec.CornerVariant) (file_name : string)
    (width height xFrac yFrac : float) (fontSize : Z)
    (label_line1 : string) (label_line2 : option string)
    (Hconv : Spec.two_line label_line2 = true ->
             Z.abs (fontSize - 2) < float_overflow) :
  let d_x := (Py.min width height * xFrac)%float in
  let d_y := (Py.min width height * yFrac)%float in
  let a := Spec.anchor v width height d_x d_y in
  exists files name doc t,
    corner_label_generator.writeSvg file_name width height xFrac yFrac fontSize
      label_line1 label_line2 = Ok files /\
    List.length files = 4%nat /\
    nth_error files (Z.to_nat (Spec.variant_index v)) = Some (name, doc) /\
    create_svg_corners width height (fst a) (snd a) fontSize
      (Spec.textAnchor v) (Spec.baseline v) (Spec.isLowerCorner v)
      label_line1 label_line2 = Ok doc /\
    svg_width doc = mm width /\
    svg_height doc = mm height /\
    texts (svg_elements doc) = [t] /\
    text_x t = mm (fst a) /\
    text_y t = mm (snd a) /\
    text_anchor t = Spec.textAnchor v /\
    dominant_baseline t = Spec.baseline v /\
    Spec.run_of t =
      Spec.cornerTextRun (Spec.isLowerCorner v)
        (Z2F (Spec.effectiveFontSize fontSize label_line2))
        label_line1 label_line2.
Proof.
  intros d_x d_y a.
  destruct (writeSvg_ok file_name width height xFrac yFrac fontSize
              label_line1 label_line2 Hconv)
    as [d0 [d1 [d2 [d3 [H0 [H1 [H2 [H3 Hw]]]]]]]].
  fold d_x d_y in H0, H1, H2, H3.
  destruct (create_svg_corners_shape width height (fst a) (snd a) fontSize
              (Spec.textAnchor v) (Spec.baseline v) (Spec.isLowerCorner v)
              label_line1 label_line2 Hconv)
    as [doc [t [Hdoc [Hwd [Hht [Hel [Hx [Hy [Hta [Hdb [_ [Hrun _]]]]]]]]]]]].
  assert (Hsc : corner_label_generator.svg_content (Spec.variant_index v)
    width height d_x d_y
                  fontSize label_line1 label_line2 = Ok doc).
  { rewrite svg_content_variant. exact Hdoc. }
  eexists. exists (file_name ++ nth (Z.to_nat (Spec.variant_index v))
                                  corner_label_generator.names "")%string.
  exists doc, t.
  split; [exact Hw |]. split; [reflexivity |].
  split.
  { destruct v; cbn [Spec.variant_index] in Hsc |- *;
      [ rewrite H0 in Hsc | rewrite H1 in Hsc
      | rewrite H2 in Hsc | rewrite H3 in Hsc ];
      injection Hsc as <-; reflexivity. }
  split; [exact Hdoc |].
  rewrite Hel. cbn [texts].
  repeat split; assumption.
Qed.

Lemma corner_anchor_per_variant_witness :
  exists files name doc t,
    corner_label_generator.writeSvg "BrokenSisters" 139.7 203.2 0.12 0.12 28
      "Broken Mountain" (Some "Sisters, Kansas") = Ok files /\
    List.length files = 4%nat /\
    nth_error files 3 = Some (name, doc) /\
    create_svg_corners 139.7 203.2
      (139.7 - 139.7 * 0.12) (203.2 - 139.7 * 0.12) 28
      "end" "central" true
      "Broken Mountain" (Some "Sisters, Kansas") = Ok doc /\
    svg_width doc = mm 139.7 /\
    svg_height doc = mm 203.2 /\
    texts (svg_elements doc) = [t] /\
    text_x t = mm (139.7 - 139.7 * 0.12) /\
    text_y t = mm (203.2 - 139.7 * 0.12) /\
    text_anchor t = "end" /\
    dominant_baseline t = "central" /\
    Spec.run_of t =
      [ (Float 1.2, Some "Sisters, Kansas");
        (Float (-1.2 * 26), Some "Broken Mountain") ].
Proof.
  apply (corner_anchor_per_variant Spec.BottomRight "BrokenSisters"
           139.7 203.2 0.12 0.12 28
           "Broken Mountain" (Some "Sisters, Kansas")).
  intros _. vm_compute. reflexivity.
Defined.

(** C8: for width 139.7, height 203.2, both fractions 0.12, font size 28 and
    the single line "Alabama", the inset is min(139.7, 203.2) * 0.12 = 16.764
    and the top-left document has its text anchored at (16.764, 16.764) with
    text anchor start and baseline hanging; its text run holds one TSpan, with
    dy 1.2 and the text "Alabama" (the second entry of its element list is
    None). *)
Theorem alabama_top_left :
  (Py.min 139.7 203.2 * 0.12)%float = 16.764%float /\
  exists files doc t,
    corner_label_generator.writeSvg "Alabama" 139.7 203.2 0.12 0.12 28
      "Alabama" None = Ok files /\
    nth_error files 0 = Some ("Alabama_topLeft.svg", doc) /\
    texts (svg_elements doc) = [t] /\
    text_x t = mm 16.764 /\
    text_y t = mm 16.764 /\
    text_anchor t = "start" /\
    dominant_baseline t = "hanging" /\
    text_font_size t = 28 /\
    text_elements t =
      Some [ Some (mkTSpan (mm 16.764) (Float 1.2) (Some "Alabama")); None ] /\
    Spec.run_of t = [ (Float 1.2, Some "Alabama") ].
Proof.
  split; [vm_compute; reflexivity |].
  do 3 eexists.
  split; [vm_compute; reflexivity |].
  repeat split; vm_compute; reflexivity.
Qed.

(** ** The plaque engine *)

Lemma py_max_Zmax (a b : Z) : Py.max a b = Z.max a b.
Proof.
  unfold Py.max. destruct (a <? b) eqn:E.
  - apply Z.ltb_lt in E. lia.
  - apply Z.ltb_ge in E. lia.
Qed.

Lemma len_nonneg (s : string) : 0 <= len s.
Proof. unfold len. lia. Qed.

Lemma numLines_range (line2 : option string) :
  Spec.numLines line2 = 1 \/ Spec.numLines line2 = 2.
Proof. destruct line2; [right | left]; reflexivity. Qed.

Lemma plaque_convertible_conversions
    (fontSize : Z) (line1 : string) (line2 : option string) :
  Spec.plaque_convertible fontSize line1 line2 ->
  Z.abs (Spec.maxLabelLength line1 line2 * fontSize) < float_overflow /\
  Z.abs fontSize < float_overflow /\
  Z.abs (Spec.textHeight fontSize line2) < float_overflow.
Proof.
  unfold Spec.plaque_convertible, Spec.textHeight.
  intros H.
  assert (Hm : 0 <= Spec.maxLabelLength line1 line2).
  { unfold Spec.maxLabelLength. pose proof (len_nonneg line1). lia. }
  pose proof (numLines_range line2) as Hn.
  rewrite !Z.abs_mul.
  rewrite (Z.abs_eq (Spec.maxLabelLength line1 line2)) by assumption.
  pose proof (Z.abs_nonneg fontSize) as Hf.
  repeat split.
  - eapply Z.le_lt_trans; [| exact H]. nia.
  - eapply Z.le_lt_trans; [| exact H]. nia.
  - eapply Z.le_lt_trans; [| exact H].
    destruct Hn as [-> | ->]; cbn [Z.abs]; nia.
Qed.

Lemma calculate_plaque_dimensions_locals_ok
    (fontSize : Z) (line1 : string) (line2 : option string) :
  Spec.plaque_convertible fontSize line1 line2 ->
  calculate_plaque_dimensions_locals fontSize line1 line2 =
  Ok (mkLocals (Spec.numLines line2) (Spec.maxLabelLength line1 line2)
        (Spec.textWidth fontSize line1 line2)
        (Spec.textHeight fontSize line2)
        (Spec.padding fontSize) (Spec.padding fontSize)
        (Spec.plaqueWidth fontSize line1 line2)
        (Spec.plaqueHeight fontSize line2)).
Proof.
  intros H.
  destruct (plaque_convertible_conversions _ _ _ H) as [Hw [Hf Hh]].
  unfold calculate_plaque_dimensions_locals, mul_int_float, add_int_float.
  rewrite py_max_Zmax.
  fold (Spec.maxLabelLength line1 line2).
  fold (Spec.numLines line2).
  fold (Spec.textHeight fontSize line2).
  rewrite (float_of_int_ok _ Hw), (float_of_int_ok _ Hf),
    (float_of_int_ok _ Hh).
  reflexivity.
Qed.

Lemma create_svg_plaque_shape
    (fontSize : Z) (line1 : string) (line2 : option string) :
  Spec.plaque_convertible fontSize line1 line2 ->
  let pw := Spec.plaqueWidth fontSize line1 line2 in
  let ph := Spec.plaqueHeight fontSize line2 in
  let px := Spec.plaqueOrigin pw in
  let py := Spec.plaqueOrigin ph in
  exists doc t,
    create_svg_plaque fontSize line1 line2 = Ok doc /\
    calculate_plaque_dimensions fontSize line1 line2 = Ok (pw, ph) /\
    svg_width doc = Float (Spec.artboard pw) /\
    svg_height doc = Float (Spec.artboard ph) /\
    hd_error (svg_elements doc) =
      Some (ERect (mkRect (Float px) (Float py) (Float pw) (Float ph)
                     "none" "red")) /\
    texts (svg_elements doc) = [t] /\
    text_x t = Float (Spec.plaqueCenterX px pw) /\
    text_y t = Float (Spec.plaqueBaselineY py ph fontSize line1 line2) /\
    text_anchor t = "middle" /\
    text_font_size t = fontSize /\
    Forall (fun tx => tx = text_x t) (Spec.run_xs t) /\
    (if Spec.two_line line2
     then text_elements t =
            Some [ Some (mkTSpan (text_x t) (Float 1.2) (Some line1));
                   Some (mkTSpan (text_x t) (Int fontSize) line2) ] /\
          text_text t = None
     else text_elements t = None /\ text_text t = Some line1).
Proof.
  intros H pw ph px py.
  destruct (plaque_convertible_conversions _ _ _ H) as [_ [Hf _]].
  unfold create_svg_plaque, calculate_plaque_dimensions.
  rewrite (calculate_plaque_dimensions_locals_ok _ _ _ H).
  cbn [bind plaque_width plaque_height].
  fold pw ph.
  unfold mul_float_int. rewrite (float_of_int_ok _ Hf).
  unfold Spec.plaqueBaselineY, Spec.yOffsetFactor, Spec.two_line,
    Spec.plaqueCenterX.
  destruct (truthy line2) eqn:Htwo.
  - destruct (has_descenders (str line2));
      eexists; eexists; (split; [reflexivity |]);
      cbn; rewrite ?Z.add_0_r;
      repeat split; repeat constructor;
      destruct fontSize; reflexivity.
  - destruct (has_descenders line1);
      eexists; eexists; (split; [reflexivity |]);
      cbn; repeat split; repeat constructor.
Qed.

(** C3: textWidth = max(len(line1), len(line2 or "")) * fontSize * 0.55,
    textHeight = fontSize * numLines with numLines 1 or 2, padding =
    fontSize * 0.1 on each axis, plaqueWidth = textWidth + 2 * padding,
    plaqueHeight = textHeight + 2 * padding; the artboard is the plaque times
    1.05 in both dimensions and the plaque rectangle sits at
    ((artboard - plaque) / 2) on each axis.  For font size 80 and the lines
    "Broken Mountain" and "Sisters, Kansas", both of 15 characters,
    textWidth = 660, plaqueHeight = 176 and the artboard width is
    plaqueWidth * 1.05 with plaqueWidth = 676. *)
Theorem plaque_dimensions :
  (forall (fontSize : Z) (line1 : string) (line2 : option string),
      Spec.plaque_convertible fontSize line1 line2 ->
      exists L doc,
        calculate_plaque_dimensions_locals fontSize line1 line2 = Ok L /\
        max_label_length L = Z.max (len line1) (len (or_empty line2)) /\
        text_width L = (Z2F (max_label_length L * fontSize) * 0.55)%float /\
        (num_lines L = 1 \/ num_lines L = 2) /\
        num_lines L = Spec.numLines line2 /\
        text_height L = fontSize * num_lines L /\
        padding_x L = (Z2F fontSize * 0.1)%float /\
        padding_y L = (Z2F fontSize * 0.1)%float /\
        plaque_width L = (text_width L + 2 * padding_x L)%float /\
        plaque_height L = (Z2F (text_height L) + 2 * padding_y L)%float /\
        calculate_plaque_dimensions fontSize line1 line2 =
          Ok (plaque_width L, plaque_height L) /\
        create_svg_plaque fontSize line1 line2 = Ok doc /\
        svg_width doc = Float (plaque_width L * 1.05) /\
        svg_height doc = Float (plaque_height L * 1.05) /\
        hd_error (svg_elements doc) =
          Some (ERect (mkRect
                  (Float ((plaque_width L * 1.05 - plaque_width L) / 2))
                  (Float ((plaque_height L * 1.05 - plaque_height L) / 2))
                  (Float (plaque_width L)) (Float (plaque_height L))
                  "none" "red"))) /\
  (len "Broken Mountain" = 15 /\
   len "Sisters, Kansas" = 15 /\
   exists L doc,
     calculate_plaque_dimensions_locals 80 "Broken Mountain"
       (Some "Sisters, Kansas") = Ok L /\
     max_label_length L = 15 /\
     num_lines L = 2 /\
     text_width L = 660%float /\
     plaque_width L = 676%float /\
     plaque_height L = 176%float /\
     create_svg_plaque 80 "Broken Mountain" (Some "Sisters, Kansas")
       = Ok doc /\
     svg_width doc = Float (676 * 1.05)).
Proof.
  split.
  - intros fontSize line1 line2 H.
    destruct (create_svg_plaque_shape fontSize line1 line2 H)
      as [doc [t [Hdoc [Hdims [Hw [Hh [Hrect _]]]]]]].
    eexists. exists doc.
    split; [apply (calculate_plaque_dimensions_locals_ok _ _ _ H) |].
    cbn [max_label_length text_width num_lines text_height padding_x
           padding_y plaque_width plaque_height].
    repeat split; try reflexivity; try assumption.
    apply numLines_range.
  - split; [reflexivity |]. split; [reflexivity |].
    do 2 eexists.
    split; [vm_compute; reflexivity |].
    repeat split; vm_compute; reflexivity.
Qed.

Lemma plaque_dimensions_witness :
  exists L doc,
    calculate_plaque_dimensions_locals 24 "Broken Mountain"
      (Some "Goopy Pijen Rqual") = Ok L /\
    max_label_length L = 17 /\
    text_width L = (Z2F (max_label_length L * 24) * 0.55)%float /\
    (num_lines L = 1 \/ num_lines L = 2) /\
    num_lines L = 2 /\
    text_height L = 24 * num_lines L /\
    padding_x L = (Z2F 24 * 0.1)%float /\
    padding_y L = (Z2F 24 * 0.1)%float /\
    plaque_width L = (text_width L + 2 * padding_x L)%float /\
    plaque_height L = (Z2F (text_height L) + 2 * padding_y L)%float /\
    calculate_plaque_dimensions 24 "Broken Mountain"
      (Some "Goopy Pijen Rqual") = Ok (plaque_width L, plaque_height L) /\
    create_svg_plaque 24 "Broken Mountain" (Some "Goopy Pijen Rqual")
      = Ok doc /\
    svg_width doc = Float (plaque_width L * 1.05) /\
    svg_height doc = Float (plaque_height L * 1.05) /\
    hd_error (svg_elements doc) =
      Some (ERect (mkRect
              (Float ((plaque_width L * 1.05 - plaque_width L) / 2))
              (Float ((plaque_height L * 1.05 - plaque_height L) / 2))
              (Float (plaque_width L)) (Float (plaque_height L))
              "none" "red")).
Proof.
  apply (proj1 plaque_dimensions 24 "Broken Mountain"
           (Some "Goopy Pijen Rqual")).
  vm_compute. reflexivity.
Defined.

(** C4: with two lines the text y is
    plaqueY + 0.85 * (plaqueHeight / 2 - yOffsetFactor * fontSize), with
    yOffsetFactor 0.45 when line 2 has no descender and 0.5 otherwise, line 1
    at dy 1.2 and line 2 at dy 1 * fontSize; with one line it is
    plaqueY + 0.85 * (plaqueHeight / 2 + yOffsetFactor * fontSize), with
    yOffsetFactor 0.05 when line 1 has a descender and 0.1 otherwise; the
    font size rendered is the nominal one in both cases. *)
Theorem plaque_text_baseline
    (fontSize : Z) (line1 : string) (line2 : option string)
    (Hconv : Spec.plaque_convertible fontSize line1 line2) :
  exists doc t plaqueWidth plaqueHeight,
    create_svg_plaque fontSize line1 line2 = Ok doc /\
    calculate_plaque_dimensions fontSize line1 line2 =
      Ok (plaqueWidth, plaqueHeight) /\
    texts (svg_elements doc) = [t] /\
    text_font_size t = fontSize /\
    let plaqueY := ((plaqueHeight * 1.05 - plaqueHeight) / 2)%float in
    if Spec.two_line line2 then
      let yOffsetFactor :=
        (if has_descenders (str line2) then 0.5 else 0.45)%float in
      text_y t =
        Float (plaqueY +
               0.85 * (plaqueHeight / 2 - yOffsetFactor * Z2F fontSize)) /\
      Spec.run_of t = [ (Float 1.2, Some line1); (Int (1 * fontSize), line2) ]
    else
      let yOffsetFactor :=
        (if has_descenders line1 then 0.05 else 0.1)%float in
      text_y t =
        Float (plaqueY +
               0.85 * (plaqueHeight / 2 + yOffsetFactor * Z2F fontSize)) /\
      text_elements t = None /\
      text_text t = Some line1.
Proof.
  destruct (create_svg_plaque_shape fontSize line1 line2 Hconv)
    as [doc [t [Hdoc [Hdims [_ [_ [_ [Ht [_ [Hy [_ [Hfs [_ Hrun]]]]]]]]]]]]].
  exists doc, t. do 2 eexists.
  split; [exact Hdoc |]. split; [exact Hdims |].
  split; [exact Ht |]. split; [exact Hfs |].
  cbv zeta. rewrite Hy.
  unfold Spec.plaqueBaselineY, Spec.yOffsetFactor, Spec.run_of.
  destruct (Spec.two_line line2).
  - destruct Hrun as [Hel _]. rewrite Hel. cbn.
    split; [reflexivity |].
    destruct fontSize; reflexivity.
  - destruct Hrun as [Hel Htx]. repeat split; assumption.
Qed.

Lemma plaque_text_baseline_witness :
  exists doc t plaqueWidth plaqueHeight,
    create_svg_plaque 80 "Broken Mountain" (Some "Sisters, Kansas")
      = Ok doc /\
    calculate_plaque_dimensions 80 "Broken Mountain" (Some "Sisters, Kansas")
      = Ok (plaqueWidth, plaqueHeight) /\
    texts (svg_elements doc) = [t] /\
    text_font_size t = 80 /\
    text_y t =
      Float ((plaqueHeight * 1.05 - plaqueHeight) / 2 +
             0.85 * (plaqueHeight / 2 - 0.45 * 80)) /\
    Spec.run_of t = [ (Float 1.2, Some "Broken Mountain");
                      (Int 80, Some "Sisters, Kansas") ].
Proof.
  apply (plaque_text_baseline 80 "Broken Mountain" (Some "Sisters, Kansas")).
  vm_compute. reflexivity.
Defined.

(** C10: the one text element of a plaque has x = plaqueX + plaqueWidth / 2
    and text anchor middle, whatever the lines are, and with two lines each
    TSpan repeats that x. *)
Theorem plaque_text_centered
    (fontSize : Z) (line1 : string) (line2 : option string)
    (Hconv : Spec.plaque_convertible fontSize line1 line2) :
  exists doc t plaqueWidth plaqueHeight,
    create_svg_plaque fontSize line1 line2 = Ok doc /\
    calculate_plaque_dimensions fontSize line1 line2 =
      Ok (plaqueWidth, plaqueHeight) /\
    texts (svg_elements doc) = [t] /\
    let plaqueX := ((plaqueWidth * 1.05 - plaqueWidth) / 2)%float in
    text_x t = Float (plaqueX + plaqueWidth / 2) /\
    text_anchor t = "middle" /\
    Forall (fun tx => tx = Float (plaqueX + plaqueWidth / 2)) (Spec.run_xs t) /\
    (Spec.two_line line2 = true -> List.length (Spec.run_xs t) = 2%nat).
Proof.
  destruct (create_svg_plaque_shape fontSize line1 line2 Hconv)
    as [doc [t [Hdoc [Hdims [_ [_ [_ [Ht [Hx [_ [Ha [_ [Hxs Hrun]]]]]]]]]]]]].
  exists doc, t. do 2 eexists.
  split; [exact Hdoc |]. split; [exact Hdims |].
  split; [exact Ht |].
  cbv zeta. rewrite Hx in Hxs.
  split; [exact Hx |]. split; [exact Ha |]. split; [exact Hxs |].
  intros Htwo. rewrite Htwo in Hrun. destruct Hrun as [Hel _].
  unfold Spec.run_xs. rewrite Hel. reflexivity.
Qed.

Lemma plaque_text_centered_witness :
  exists doc t plaqueWidth plaqueHeight,
    create_svg_plaque 80 "Goopy Pijen Rqual" (Some "Broken Mountain")
      = Ok doc /\
    calculate_plaque_dimensions 80 "Goopy Pijen Rqual"
      (Some "Broken Mountain") = Ok (plaqueWidth, plaqueHeight) /\
    texts (svg_elements doc) = [t] /\
    text_x t =
      Float ((plaqueWidth * 1.05 - plaqueWidth) / 2 + plaqueWidth / 2) /\
    text_anchor t = "middle" /\
    Forall (fun tx =>
              tx = Float ((plaqueWidth * 1.05 - plaqueWidth) / 2 +
                          plaqueWidth / 2))
      (Spec.run_xs t) /\
    (Spec.two_line (Some "Broken Mountain") = true ->
     List.length (Spec.run_xs t) = 2%nat).
Proof.
  apply (plaque_text_centered 80 "Goopy Pijen Rqual" (Some "Broken Mountain")).
  vm_compute. reflexivity.
Defined.

(** ** The grid engine: the palette index *)

Import corner_label_generator_grid2.

Lemma texts_app (l1 l2 : list Element) :
  texts (l1 ++ l2) = (texts l1 ++ texts l2)%list.
Proof.
  induction l1 as [| e l1 IH]; [reflexivity |].
  destruct e; cbn [texts app]; now rewrite IH.
Qed.

Lemma texts_map_EText (ts : list Text) : texts (map EText ts) = ts.
Proof.
  induction ts as [| t ts IH]; [reflexivity |].
  cbn [map texts]. now rewrite IH.
Qed.

Lemma range_length (n : Z) : 0 <= n -> Z.of_nat (List.length (range n)) = n.
Proof.
  intros Hn. unfold range. rewrite length_map, length_seq. lia.
Qed.

Lemma range_convertible (n : Z) :
  n < float_overflow ->
  Forall (fun z => Z.abs z < float_overflow) (range n).
Proof.
  intros Hn. apply Forall_forall. intros z Hz.
  unfold range in Hz. apply in_map_iff in Hz.
  destruct Hz as [i [<- Hi]]. apply in_seq in Hi.
  rewrite Z.abs_eq by lia. lia.
Qed.

Lemma palette_index_ok (ci : Z) :
  0 <= ci < 3 ->
  index colorArray ci = Ok (nth (Z.to_nat ci) colorArray "").
Proof.
  intros H.
  assert (Hc : ci = 0 \/ ci = 1 \/ ci = 2) by lia.
  destruct Hc as [-> | [-> | ->]]; reflexivity.
Qed.

Lemma palette_index_out (ci : Z) :
  3 <= ci -> index colorArray ci = Raise IndexError.
Proof.
  intros H. unfold index.
  change (Z.of_nat (List.length colorArray)) with 3.
  destruct (ci <? 0) eqn:Hneg; [apply Z.ltb_lt in Hneg; lia |].
  destruct (ci <? 3) eqn:Hlt; [apply Z.ltb_lt in Hlt; lia |].
  now rewrite andb_false_r.
Qed.

Section GridLoop.

Variables (width height x y : float) (fontSize : Z).
Variables (text_anchor dominant_baseline : string) (lower_corner : bool).
Variables (label_line1 : string) (label_line2 : option string).

Hypothesis Hfont :
  Spec.two_line label_line2 = true -> Z.abs fontSize < float_overflow.

(** A cell whose palette index is in range is appended, with the palette
    entry at that index, at the cell's anchor, with the font size as given. *)
Lemma grid_cell_ok (column row ci : Z) (els : list Element) :
  Z.abs column < float_overflow ->
  Z.abs row < float_overflow ->
  0 <= ci < 3 ->
  exists t,
    grid_cell width height x y fontSize text_anchor dominant_baseline
      lower_corner label_line1 label_line2 column row (ci, els)
    = Ok (ci + 1, (els ++ [EText t])%list) /\
    text_fill t = nth (Z.to_nat ci) colorArray "" /\
    text_x t = mm (x + width * Z2F column) /\
    text_y t = mm (y + height * Z2F row) /\
    svg.text_anchor t = text_anchor /\
    svg.dominant_baseline t = dominant_baseline /\
    text_font_size t = fontSize /\
    Spec.run_of t =
      Spec.cornerTextRun lower_corner (Z2F fontSize) label_line1 label_line2 /\
    Forall (fun tx => tx = text_x t) (Spec.run_xs t).
Proof.
  intros Hc Hr Hci.
  unfold grid_cell.
  rewrite (float_of_int_ok _ Hc), (float_of_int_ok _ Hr).
  cbn [bind]. rewrite (palette_index_ok _ Hci).
  unfold Spec.cornerTextRun, Spec.two_line in *.
  destruct (truthy label_line2) eqn:Htwo.
  - rewrite (float_of_int_ok _ (Hfont eq_refl)).
    destruct lower_corner; cbn [andb bind];
      eexists; (split; [reflexivity |]);
      cbn; repeat split; repeat constructor.
  - rewrite andb_false_r. cbn [bind].
    eexists; (split; [reflexivity |]).
    cbn. repeat split; repeat constructor.
Qed.

(** A cell reached with the palette exhausted raises [IndexError]. *)
Lemma grid_cell_out (column row ci : Z) (els : list Element) :
  Z.abs column < float_overflow ->
  Z.abs row < float_overflow ->
  3 <= ci ->
  grid_cell width height x y fontSize text_anchor dominant_baseline
    lower_corner label_line1 label_line2 column row (ci, els)
  = Raise IndexError.
Proof.
  intros Hc Hr Hci.
  unfold grid_cell.
  rewrite (float_of_int_ok _ Hc), (float_of_int_ok _ Hr).
  cbn [bind]. rewrite (palette_index_out _ Hci).
  destruct (lower_corner && truthy label_line2); reflexivity.
Qed.

(** The inner loop, over the rows of one column. *)
Lemma grid_rows (column : Z) (rs : list Z) :
  Z.abs column < float_overflow ->
  Forall (fun z => Z.abs z < float_overflow) rs ->
  forall (ci : Z) (els : list Element),
    0 <= ci <= 3 ->
    (ci + Z.of_nat (List.length rs) <= 3 ->
     exists ts,
       for_each rs
         (grid_cell width height x y fontSize text_anchor dominant_baseline
            lower_corner label_line1 label_line2 column)
         (ci, els)
       = Ok (ci + Z.of_nat (List.length rs), (els ++ map EText ts)%list) /\
       map text_fill ts =
         map (fun i => nth i colorArray "")
           (seq (Z.to_nat ci) (List.length rs))) /\
    (3 < ci + Z.of_nat (List.length rs) ->
     for_each rs
       (grid_cell width height x y fontSize text_anchor dominant_baseline
          lower_corner label_line1 label_line2 column)
       (ci, els)
     = Raise IndexError).
Proof.
  intros Hc Hrs.
  induction Hrs as [| r rs Hr Hrs IH]; intros ci els Hci.
  - cbn [List.length for_each Z.of_nat]. split.
    + intros _. exists []. cbn [map seq].
      now rewrite Z.add_0_r, app_nil_r.
    + intros Hgt. lia.
  - cbn [for_each]. rewrite length_cons, Nat2Z.inj_succ.
    destruct (Z.eq_dec ci 3) as [-> | Hne].
    + split; [intros Hle; lia |].
      intros _. now rewrite (grid_cell_out column r 3 els Hc Hr) by lia.
    + assert (Hlt : 0 <= ci < 3) by lia.
      destruct (grid_cell_ok column r ci els Hc Hr Hlt)
        as [t [Hcell [Hfill _]]].
      rewrite Hcell. cbn [bind].
      destruct (IH (ci + 1) (els ++ [EText t])%list) as [IHok IHout];
        [lia |].
      split.
      * intros Hle. destruct IHok as [ts [Hloop Hfills]]; [lia |].
        exists (t :: ts). rewrite Hloop. split.
        -- f_equal. f_equal; [lia |].
           now rewrite <- app_assoc.
        -- cbn [map seq]. rewrite Hfill, Hfills.
           now rewrite Z2Nat.inj_add, Nat.add_1_r by lia.
      * intros Hgt. apply IHout. lia.
Qed.

(** The outer loop, over the columns. *)
Lemma grid_columns (rs : list Z) (cs : list Z) :
  Forall (fun z => Z.abs z < float_overflow) rs ->
  Forall (fun z => Z.abs z < float_overflow) cs ->
  forall (ci : Z) (els : list Element),
    0 <= ci <= 3 ->
    let n := (List.length cs * List.length rs)%nat in
    (ci + Z.of_nat n <= 3 ->
     exists ts,
       for_each cs
         (fun column =>
            for_each rs
              (grid_cell width height x y fontSize text_anchor
                 dominant_baseline lower_corner label_line1 label_line2
                 column))
         (ci, els)
       = Ok (ci + Z.of_nat n, (els ++ map EText ts)%list) /\
       map text_fill ts =
         map (fun i => nth i colorArray "") (seq (Z.to_nat ci) n)) /\
    (3 < ci + Z.of_nat n ->
     for_each cs
       (fun column =>
          for_each rs
            (grid_cell width height x y fontSize text_anchor
               dominant_baseline lower_corner label_line1 label_line2
               column))
       (ci, els)
     = Raise IndexError).
Proof.
  intros Hrs Hcs.
  induction Hcs as [| c cs Hc Hcs IH]; intros ci els Hci n.
  - subst n. cbn [List.length for_each Nat.mul Z.of_nat]. split.
    + intros _. exists []. cbn [map seq].
      now rewrite Z.add_0_r, app_nil_r.
    + intros Hgt. lia.
  - subst n. cbn [for_each List.length Nat.mul].
    rewrite Nat2Z.inj_add.
    destruct (grid_rows c rs Hc Hrs ci els Hci) as [Rok Rout].
    destruct (Z_le_gt_dec (ci + Z.of_nat (List.length rs)) 3) as [Hin | Hex].
    + destruct (Rok Hin) as [ts1 [Hloop1 Hfills1]].
      rewrite Hloop1. cbn [bind].
      destruct (IH (ci + Z.of_nat (List.length rs))
                  (els ++ map EText ts1)%list) as [IHok IHout]; [lia |].
      cbv zeta in IHok, IHout.
      split.
      * intros Hle. destruct IHok as [ts2 [Hloop2 Hfills2]]; [lia |].
        exists (ts1 ++ ts2)%list. rewrite Hloop2. split.
        -- f_equal. f_equal; [lia |].
           now rewrite map_app, app_assoc.
        -- rewrite map_app, Hfills1, Hfills2, seq_app, map_app.
           do 3 f_equal. rewrite Z2Nat.inj_add by lia.
           now rewrite Nat2Z.id.
      * intros Hgt. apply IHout. lia.
    + split; [intros Hle; lia |].
      intros _. rewrite Rout by lia. reflexivity.
Qed.

End GridLoop.

(** C6: for rows >= 1 and columns >= 1 the grid engine returns a document
    only when the grid has at most three cells, and then the i-th label in
    emission order is filled with palette entry i (which is i mod 3); with
    four cells or more the palette index runs past the palette of three
    colours and the call raises IndexError. *)
Theorem grid_palette_indexing
    (rows columns : Z) (width height x y : float) (fontSize : Z)
    (text_anchor dominant_baseline : string) (lower_corner : bool)
    (label_line1 : string) (label_line2 : option string)
    (Hrows : 1 <= rows < float_overflow)
    (Hcolumns : 1 <= columns < float_overflow)
    (Hfont : Spec.two_line label_line2 = true ->
             Z.abs fontSize < float_overflow) :
  (rows * columns <= 3 ->
   exists doc,
     create_svg_corners_grid rows columns width height x y fontSize
       text_anchor dominant_baseline lower_corner label_line1 label_line2
     = Ok doc /\
     map text_fill (texts (svg_elements doc)) =
       map (fun i => nth (i mod 3) colorArray "")
         (seq 0 (Z.to_nat (rows * columns)))) /\
  (3 < rows * columns ->
   create_svg_corners_grid rows columns width height x y fontSize
     text_anchor dominant_baseline lower_corner label_line1 label_line2
   = Raise IndexError).
Proof.
  assert (Hr : Z.abs rows < float_overflow) by (rewrite Z.abs_eq; lia).
  assert (Hc : Z.abs columns < float_overflow) by (rewrite Z.abs_eq; lia).
  unfold create_svg_corners_grid, mul_float_int.
  rewrite (float_of_int_ok _ Hc), (float_of_int_ok _ Hr).
  cbn [bind].
  pose proof (grid_columns width height x y fontSize text_anchor
                dominant_baseline lower_corner label_line1 label_line2 Hfont
                (range rows) (range columns)
                (range_convertible rows (proj2 Hrows))
                (range_convertible columns (proj2 Hcolumns))
                0
                [ERect (mkRect (Int 0) (Int 0) (mm (width * Z2F columns))
                          (mm (height * Z2F rows)) "white" "red")]
                ltac:(lia)) as Hloop.
  cbv zeta in Hloop.
  assert (Hn : Z.of_nat (List.length (range columns) *
                         List.length (range rows)) = rows * columns).
  { rewrite Nat2Z.inj_mul, !range_length by lia. lia. }
  rewrite Hn in Hloop. destruct Hloop as [Hok Hout].
  split.
  - intros Hle. destruct (Hok ltac:(lia)) as [ts [Hrun Hfills]].
    rewrite Hrun. cbn [bind snd].
    eexists. split; [reflexivity |].
    cbn [svg_elements]. rewrite texts_app, texts_map_EText.
    cbn [texts app]. rewrite Hfills.
    replace (List.length (range columns) * List.length (range rows))%nat
      with (Z.to_nat (rows * columns)) by lia.
    apply map_ext_in. intros i Hi. apply in_seq in Hi.
    rewrite Nat.mod_small by lia. reflexivity.
  - intros Hgt. rewrite (Hout ltac:(lia)). reflexivity.
Qed.

Lemma grid_palette_indexing_witness :
  (2 * 2 <= 3 ->
   exists doc,
     create_svg_corners_grid 2 2 139.7 203.2 16.764 16.764 28
       "start" "text-top" false "Broken Mountain" (Some "Sisters, Kansas")
     = Ok doc /\
     map text_fill (texts (svg_elements doc)) =
       map (fun i => nth (i mod 3) colorArray "") (seq 0 (Z.to_nat (2 * 2)))) /\
  (3 < 2 * 2 ->
   create_svg_corners_grid 2 2 139.7 203.2 16.764 16.764 28
     "start" "text-top" false "Broken Mountain" (Some "Sisters, Kansas")
   = Raise IndexError).
Proof.
  apply (grid_palette_indexing 2 2 139.7 203.2 16.764 16.764 28
           "start" "text-top" false "Broken Mountain"
           (Some "Sisters, Kansas")).
  - vm_compute. split; [discriminate | reflexivity].
  - vm_compute. split; [discriminate | reflexivity].
  - intros _. vm_compute. reflexivity.
Defined.

(** ** Parameters are not validated *)

(** C7, as stated, fails: a call with a negative width, a zero height, both
    fractions outside (0, 1) and an empty first line returns its four
    documents, and the plaque dimensions of an empty label are computed. *)
Lemma invalid_parameters_accepted :
  Spec.invalid_parameter (-139.7) 0 1.5 (-0.12) "" = true /\
  (exists files,
      corner_label_generator.writeSvg "out" (-139.7) 0 1.5 (-0.12) 28 "" None
      = Ok files /\
      List.length files = 4%nat /\
      map (fun f => svg_width (snd f)) files =
        [mm (-139.7); mm (-139.7); mm (-139.7); mm (-139.7)]) /\
  calculate_plaque_dimensions 80 "" None = Ok (16%float, 96%float).
Proof.
  split; [vm_compute; reflexivity |].
  split; [| vm_compute; reflexivity].
  eexists. split; [vm_compute; reflexivity |].
  split; vm_compute; reflexivity.
Qed.

(** C7, amended: no parameter is validated.  Whatever the width, height,
    fractions and lines are, the corner engine writes its four documents, each
    with the canvas and the anchor computed from the values as given (nothing
    is clamped or adjusted) and with line 1 in its text run, and the plaque
    engine returns its dimensions and its document; the one error these calls
    can raise is the OverflowError of a font size too large for a float, which
    the two hypotheses exclude. *)
Theorem parameters_not_validated
    (file_name : string) (width height xFrac yFrac : float) (fontSize : Z)
    (line1 : string) (line2 : option string)
    (Hfont : Spec.two_line line2 = true ->
             Z.abs (fontSize - 2) < float_overflow)
    (Hplaque : Spec.plaque_convertible fontSize line1 line2) :
  (exists files,
      corner_label_generator.writeSvg file_name width height xFrac yFrac
        fontSize line1 line2 = Ok files /\
      List.length files = 4%nat /\
      forall v : Spec.CornerVariant,
        let a := Spec.anchor v width height
                   (Py.min width height * xFrac)%float
                   (Py.min width height * yFrac)%float in
        exists name doc t,
          nth_error files (Z.to_nat (Spec.variant_index v))
            = Some (name, doc) /\
          svg_width doc = mm width /\
          svg_height doc = mm height /\
          texts (svg_elements doc) = [t] /\
          text_x t = mm (fst a) /\
          text_y t = mm (snd a) /\
          In (Some line1) (map snd (Spec.run_of t))) /\
  (exists doc,
      create_svg_plaque fontSize line1 line2 = Ok doc /\
      calculate_plaque_dimensions fontSize line1 line2 =
        Ok (Spec.plaqueWidth fontSize line1 line2,
            Spec.plaqueHeight fontSize line2)).
Proof.
  split.
  - destruct (writeSvg_ok file_name width height xFrac yFrac fontSize
                line1 line2 Hfont)
      as [d0 [d1 [d2 [d3 [H0 [H1 [H2 [H3 Hw]]]]]]]].
    eexists. split; [exact Hw |]. split; [reflexivity |].
    intros v a.
    destruct (create_svg_corners_shape width height (fst a) (snd a) fontSize
                (Spec.textAnchor v) (Spec.baseline v) (Spec.isLowerCorner v)
                line1 line2 Hfont)
      as [doc [t [Hdoc [Hwd [Hht [Hel [Hx [Hy [_ [_ [_ [Hrun _]]]]]]]]]]]].
    subst a. rewrite <- svg_content_variant in Hdoc.
    exists (file_name ++ nth (Z.to_nat (Spec.variant_index v))
                           corner_label_generator.names "")%string.
    exists doc, t.
    split.
    { destruct v; cbn [Spec.variant_index] in Hdoc |- *;
        [ rewrite H0 in Hdoc | rewrite H1 in Hdoc
        | rewrite H2 in Hdoc | rewrite H3 in Hdoc ];
        injection Hdoc as <-; reflexivity. }
    rewrite Hel. cbn [texts].
    repeat (split; [assumption || reflexivity |]).
    rewrite Hrun. unfold Spec.cornerTextRun.
    destruct (Spec.isLowerCorner v && Spec.two_line line2);
      [| destruct (Spec.two_line line2)]; cbn; auto.
  - destruct (create_svg_plaque_shape fontSize line1 line2 Hplaque)
      as [doc [_ [Hdoc [Hdims _]]]].
    exists doc. split; assumption.
Qed.

Lemma parameters_not_validated_witness :
  (exists files,
      corner_label_generator.writeSvg "out" (-139.7) 0 1.5 (-0.12) 28
        "" (Some "Sisters, Kansas") = Ok files /\
      List.length files = 4%nat /\
      forall v : Spec.CornerVariant,
        exists name doc t,
          nth_error files (Z.to_nat (Spec.variant_index v))
            = Some (name, doc) /\
          svg_width doc = mm (-139.7) /\
          svg_height doc = mm 0 /\
          texts (svg_elements doc) = [t] /\
          text_x t =
            mm (fst (Spec.anchor v (-139.7) 0 (-139.7 * 1.5)
                       (-139.7 * -0.12))) /\
          text_y t =
            mm (snd (Spec.anchor v (-139.7) 0 (-139.7 * 1.5)
                       (-139.7 * -0.12))) /\
          In (Some "") (map snd (Spec.run_of t))) /\
  (exists doc,
      create_svg_plaque 28 "" (Some "Sisters, Kansas") = Ok doc /\
      calculate_plaque_dimensions 28 "" (Some "Sisters, Kansas") =
        Ok (Spec.plaqueWidth 28 "" (Some "Sisters, Kansas"),
            Spec.plaqueHeight 28 (Some "Sisters, Kansas"))).
Proof.
  apply (parameters_not_validated "out" (-139.7) 0 1.5 (-0.12) 28
           "" (Some "Sisters, Kansas")).
  - intros _. vm_compute. reflexivity.
  - vm_compute. reflexivity.
Defined.

(** ** Binary64 facts the single-cell grid needs *)

Lemma Z2F_one : Z2F 1 = 1%float.
Proof. vm_compute. reflexivity. Qed.

Lemma Z2F_zero : Z2F 0 = 0%float.
Proof. vm_compute. reflexivity. Qed.

Lemma Prim2SF_one : Prim2SF 1 = S754_finite false 4503599627370496 (-52).
Proof. reflexivity. Qed.

Lemma Prim2SF_zero : Prim2SF 0 = S754_zero false.
Proof. reflexivity. Qed.

(** Rounding the mantissa [m * 2^52] at exponent [e - 52] gives back the
    float of mantissa [m] and exponent [e]. *)
Lemma round_exact_shifted (s : bool) (m : positive) (e : Z) :
  bounded prec emax m e = true ->
  binary_round_aux prec emax s (Zpos (m * 4503599627370496)) (e + -52)
    loc_Exact
  = S754_finite s m e.
Proof.
  intros Hb. unfold bounded in Hb. apply andb_true_iff in Hb.
  destruct Hb as [Hcanon Hle].
  unfold canonical_mantissa in Hcanon. apply Z.eqb_eq in Hcanon.
  rewrite Pos.mul_comm. cbn [Pos.mul].
  unfold binary_round_aux, shr_fexp.
  cbn [Zdigits2 digits2_pos shr_record_of_loc].
  match goal with
  | |- context [fexp prec emax (Zpos ?d + (e + -52))] =>
      replace (Zpos d + (e + -52)) with (Zpos (digits2_pos m) + e) by lia
  end.
  rewrite Hcanon.
  replace (e - (e + -52)) with 52 by lia.
  cbn [shr iter_pos shr_1 orb shr_m loc_of_shr_record round_nearest_even].
  replace (e + -52 + 52) with e by lia.
  cbn [Zdigits2]. rewrite Hcanon, Z.sub_diag.
  cbn [shr shr_m]. rewrite Hle. reflexivity.
Qed.

(** [w * 1 = w] for every float, NaN and the infinities included. *)
Lemma mul_one_r (w : float) : (w * 1)%float = w.
Proof.
  apply Prim2SF_inj. rewrite mul_spec, Prim2SF_one.
  pose proof (Prim2SF_valid w) as Hv.
  destruct (Prim2SF w) as [s | s | | s m e]; unfold SF64mul, SFmul.
  - now rewrite xorb_false_r.
  - now rewrite xorb_false_r.
  - reflexivity.
  - rewrite xorb_false_r. apply round_exact_shifted. exact Hv.
Qed.

Lemma finite_spec (w : float) :
  finite w = true ->
  (exists s, Prim2SF w = S754_zero s) \/
  (exists s m e, Prim2SF w = S754_finite s m e).
Proof.
  unfold finite. rewrite classify_spec.
  destruct (Prim2SF w) as [s | s | | s m e]; cbn.
  - intros _. left. now exists s.
  - destruct s; discriminate.
  - discriminate.
  - intros _. right. now exists s, m, e.
Qed.

Lemma neg_zero_spec (x : float) :
  neg_zero x = false -> Prim2SF x <> S754_zero true.
Proof.
  unfold neg_zero. rewrite classify_spec.
  intros H E. rewrite E in H. discriminate H.
Qed.

(** [x + w * 0 = x] when [w] is finite and [x] is not the negative zero. *)
Lemma add_mul_zero (x w : float) :
  finite w = true -> neg_zero x = false -> (x + w * 0)%float = x.
Proof.
  intros Hw Hx. apply Prim2SF_inj.
  rewrite add_spec, mul_spec, Prim2SF_zero.
  apply neg_zero_spec in Hx.
  destruct (finite_spec w Hw) as [[s ->] | [s [m [e ->]]]];
    unfold SF64mul, SFmul, SF64add, SFadd;
    destruct (Prim2SF x) as [sx | sx | | sx mx ex]; try reflexivity;
    destruct sx, s; try reflexivity; now elim Hx.
Qed.

(** ** The grid engine with one cell *)

Lemma grid_single_cell
    (width height x y : float) (fontSize : Z)
    (text_anchor dominant_baseline : string) (lower_corner : bool)
    (label_line1 : string) (label_line2 : option string) :
  (Spec.two_line label_line2 = true -> Z.abs fontSize < float_overflow) ->
  exists doc t,
    create_svg_corners_grid 1 1 width height x y fontSize text_anchor
      dominant_baseline lower_corner label_line1 label_line2 = Ok doc /\
    svg_width doc = mm (width * 1) /\
    svg_height doc = mm (height * 1) /\
    texts (svg_elements doc) = [t] /\
    text_fill t = "#0000FF" /\
    text_x t = mm (x + width * 0) /\
    text_y t = mm (y + height * 0) /\
    svg.text_anchor t = text_anchor /\
    svg.dominant_baseline t = dominant_baseline /\
    text_font_size t = fontSize /\
    Spec.run_of t =
      Spec.cornerTextRun lower_corner (Z2F fontSize) label_line1 label_line2.
Proof.
  intros Hfont.
  unfold create_svg_corners_grid, mul_float_int.
  change (float_of_int 1) with (Ok (Z2F 1)). cbn [bind].
  change (range 1) with [0].
  cbn [for_each bind].
  destruct (grid_cell_ok width height x y fontSize text_anchor
              dominant_baseline lower_corner label_line1 label_line2 Hfont
              0 0 0
              [ERect (mkRect (Int 0) (Int 0) (mm (width * Z2F 1))
                        (mm (height * Z2F 1)) "white" "red")])
    as [t [Hcell [Hfill [Htx [Hty [Hta [Hdb [Hfs [Hrun _]]]]]]]]].
  { vm_compute. reflexivity. }
  { vm_compute. reflexivity. }
  { lia. }
  rewrite Hcell. cbn [bind snd].
  exists (mkSVG (mm (width * Z2F 1)) (mm (height * Z2F 1))
            ([ERect (mkRect (Int 0) (Int 0) (mm (width * Z2F 1))
                       (mm (height * Z2F 1)) "white" "red")] ++ [EText t])).
  exists t.
  rewrite Z2F_zero in Htx, Hty.
  cbn [svg_width svg_height svg_elements app texts].
  rewrite Z2F_one.
  repeat split; assumption.
Qed.

Lemma grid_writeSvg_unfold
    (file_name : string) (rows columns : Z) (width height : float)
    (fontSize : Z) (label_line1 : string) (label_line2 : option string)
    (xf yf : float) :
  corner_label_generator_grid2.writeSvg file_name rows columns width height
    fontSize label_line1 label_line2 xf yf =
  (let x_start := Spec.edgeDistance width height xf in
   let y_start := Spec.edgeDistance width height yf in
   d0 <- corner_label_generator_grid2.svg_content 0 rows columns width height
           x_start y_start fontSize label_line1 label_line2 ;;
   d1 <- corner_label_generator_grid2.svg_content 1 rows columns width height
           x_start y_start fontSize label_line1 label_line2 ;;
   d2 <- corner_label_generator_grid2.svg_content 2 rows columns width height
           x_start y_start fontSize label_line1 label_line2 ;;
   d3 <- corner_label_generator_grid2.svg_content 3 rows columns width height
           x_start y_start fontSize label_line1 label_line2 ;;
   Ok [ ((file_name ++ "_topLeftGrid.svg")%string, d0);
        ((file_name ++ "_topRightGrid.svg")%string, d1);
        ((file_name ++ "_bottomLeftGrid.svg")%string, d2);
        ((file_name ++ "_bottomRightGrid.svg")%string, d3) ]).
Proof.
  unfold corner_label_generator_grid2.writeSvg, Spec.edgeDistance.
  change (range 4) with [0; 1; 2; 3].
  cbn [for_each bind].
  change (index corner_label_generator_grid2.names 0)
    with (Ok "_topLeftGrid.svg").
  change (index corner_label_generator_grid2.names 1)
    with (Ok "_topRightGrid.svg").
  change (index corner_label_generator_grid2.names 2)
    with (Ok "_bottomLeftGrid.svg").
  change (index corner_label_generator_grid2.names 3)
    with (Ok "_bottomRightGrid.svg").
  cbn [bind].
  destruct (corner_label_generator_grid2.svg_content 0 _ _ _ _ _ _ _ _ _);
    [cbn [bind app] | reflexivity].
  destruct (corner_label_generator_grid2.svg_content 1 _ _ _ _ _ _ _ _ _);
    [cbn [bind app] | reflexivity].
  destruct (corner_label_generator_grid2.svg_content 2 _ _ _ _ _ _ _ _ _);
    [cbn [bind app] | reflexivity].
  destruct (corner_label_generator_grid2.svg_content 3 _ _ _ _ _ _ _ _ _);
    reflexivity.
Qed.

(** The call the grid's [writeSvg] makes for a variant: the anchor and the
    text anchor of Table 4.1, and the grid's own baseline modes. *)
Lemma grid_svg_content_variant
    (v : Spec.CornerVariant) (rows columns : Z)
    (width height x_start y_start : float) (fontSize : Z)
    (label_line1 : string) (label_line2 : option string) :
  corner_label_generator_grid2.svg_content (Spec.variant_index v) rows columns
    width height x_start y_start fontSize label_line1 label_line2 =
  create_svg_corners_grid rows columns width height
    (fst (Spec.anchor v width height x_start y_start))
    (snd (Spec.anchor v width height x_start y_start))
    fontSize (Spec.textAnchor v) (Spec.gridBaseline v) (Spec.isLowerCorner v)
    label_line1 label_line2.
Proof. destruct v; reflexivity. Qed.

Lemma grid_writeSvg_single_ok
    (file_name : string) (width height xFrac yFrac : float) (fontSize : Z)
    (label_line1 : string) (label_line2 : option string) :
  (Spec.two_line label_line2 = true -> Z.abs fontSize < float_overflow) ->
  let x_start := (Py.min width height * xFrac)%float in
  let y_start := (Py.min width height * yFrac)%float in
  exists g0 g1 g2 g3,
    corner_label_generator_grid2.svg_content 0 1 1 width height
      x_start y_start fontSize label_line1 label_line2 = Ok g0 /\
    corner_label_generator_grid2.svg_content 1 1 1 width height
      x_start y_start fontSize label_line1 label_line2 = Ok g1 /\
    corner_label_generator_grid2.svg_content 2 1 1 width height
      x_start y_start fontSize label_line1 label_line2 = Ok g2 /\
    corner_label_generator_grid2.svg_content 3 1 1 width height
      x_start y_start fontSize label_line1 label_line2 = Ok g3 /\
    corner_label_generator_grid2.writeSvg file_name 1 1 width height
      fontSize label_line1 label_line2 xFrac yFrac =
    Ok [ ((file_name ++ "_topLeftGrid.svg")%string, g0);
         ((file_name ++ "_topRightGrid.svg")%string, g1);
         ((file_name ++ "_bottomLeftGrid.svg")%string, g2);
         ((file_name ++ "_bottomRightGrid.svg")%string, g3) ].
Proof.
  intros Hfont x_start y_start.
  assert (Hall : forall u : Spec.CornerVariant, exists doc,
             corner_label_generator_grid2.svg_content (Spec.variant_index u)
               1 1 width height x_start y_start fontSize
               label_line1 label_line2 = Ok doc).
  { intros u. rewrite grid_svg_content_variant.
    destruct (grid_single_cell width height
                (fst (Spec.anchor u width height x_start y_start))
                (snd (Spec.anchor u width height x_start y_start))
                fontSize (Spec.textAnchor u) (Spec.gridBaseline u)
                (Spec.isLowerCorner u) label_line1 label_line2 Hfont)
      as [doc [_ [Hdoc _]]].
    now exists doc. }
  destruct (Hall Spec.TopLeft) as [g0 H0].
  destruct (Hall Spec.TopRight) as [g1 H1].
  destruct (Hall Spec.BottomLeft) as [g2 H2].
  destruct (Hall Spec.BottomRight) as [g3 H3].
  cbn [Spec.variant_index] in H0, H1, H2, H3.
  exists g0, g1, g2, g3. repeat (split; [assumption |]).
  rewrite grid_writeSvg_unfold. cbv zeta.
  unfold Spec.edgeDistance. fold x_start y_start.
  rewrite H0, H1, H2, H3. reflexivity.
Qed.

(** C5, as stated, fails: for the bottom-left variant of a two-line label on
    a 139.7 x 203.2 artboard, the single-cell grid document and the corner
    document differ in baseline mode (text-bottom against central), in font
    size (28 against 26) and in the dy of the second TSpan. *)
Lemma grid_single_cell_differs :
  exists gfiles cfiles gname cname g c tg tc,
    corner_label_generator_grid2.writeSvg "Treeline" 1 1 139.7 203.2 28
      "Broken Mountain" (Some "Sisters, Kansas") 0.12 0.12 = Ok gfiles /\
    corner_label_generator.writeSvg "Treeline" 139.7 203.2 0.12 0.12 28
      "Broken Mountain" (Some "Sisters, Kansas") = Ok cfiles /\
    nth_error gfiles 2 = Some (gname, g) /\
    nth_error cfiles 2 = Some (cname, c) /\
    texts (svg_elements g) = [tg] /\
    texts (svg_elements c) = [tc] /\
    dominant_baseline tg = "text-bottom" /\
    dominant_baseline tc = "central" /\
    text_font_size tg = 28 /\
    text_font_size tc = 26 /\
    Spec.run_of tg = [ (Float 1.2, Some "Sisters, Kansas");
                       (Float (-1.2 * 28), Some "Broken Mountain") ] /\
    Spec.run_of tc = [ (Float 1.2, Some "Sisters, Kansas");
                       (Float (-1.2 * 26), Some "Broken Mountain") ] /\
    Spec.geometry g <> Spec.geometry c.
Proof.
  do 8 eexists.
  split; [vm_compute; reflexivity |].
  split; [vm_compute; reflexivity |].
  split; [vm_compute; reflexivity |].
  split; [vm_compute; reflexivity |].
  split; [vm_compute; reflexivity |].
  split; [vm_compute; reflexivity |].
  repeat (split; [vm_compute; reflexivity |]).
  intros H. vm_compute in H. discriminate H.
Qed.

(** C5, amended: with rows = 1 and columns = 1, a finite width and height
    and an anchor that is not the negative zero, the grid engine's document
    for a variant has the same canvas size, the same anchor point and the
    same text anchor as the corner engine's document for that variant, and
    its text run follows the same two-line order.  The baseline mode is
    text-top (top variants) or text-bottom (bottom variants) where the corner
    engine has hanging or central, and a two-line label keeps the nominal
    font size, for rendering and in the dy of the second TSpan, where the
    corner engine takes 2 off.  With a single line the text runs and the font
    sizes of the two documents are equal. *)
Theorem grid_single_cell_geometry
    (v : Spec.CornerVariant) (file_name : string)
    (width height xFrac yFrac : float) (fontSize : Z)
    (line1 : string) (line2 : option string)
    (Hgrid : Spec.two_line line2 = true -> Z.abs fontSize < float_overflow)
    (Hcorner : Spec.two_line line2 = true ->
               Z.abs (fontSize - 2) < float_overflow)
    (Hwidth : finite width = true)
    (Hheight : finite height = true)
    (Hx : neg_zero
            (fst (Spec.anchor v width height
                    (Py.min width height * xFrac)%float
                    (Py.min width height * yFrac)%float)) = false)
    (Hy : neg_zero
            (snd (Spec.anchor v width height
                    (Py.min width height * xFrac)%float
                    (Py.min width height * yFrac)%float)) = false) :
  exists gfiles cfiles gname cname g c tg tc,
    corner_label_generator_grid2.writeSvg file_name 1 1 width height
      fontSize line1 line2 xFrac yFrac = Ok gfiles /\
    corner_label_generator.writeSvg file_name width height xFrac yFrac
      fontSize line1 line2 = Ok cfiles /\
    nth_error gfiles (Z.to_nat (Spec.variant_index v)) = Some (gname, g) /\
    nth_error cfiles (Z.to_nat (Spec.variant_index v)) = Some (cname, c) /\
    svg_width g = svg_width c /\
    svg_height g = svg_height c /\
    texts (svg_elements g) = [tg] /\
    texts (svg_elements c) = [tc] /\
    text_x tg = text_x tc /\
    text_y tg = text_y tc /\
    text_anchor tg = text_anchor tc /\
    dominant_baseline tg = Spec.gridBaseline v /\
    dominant_baseline tc = Spec.baseline v /\
    text_font_size tg = fontSize /\
    text_font_size tc = Spec.effectiveFontSize fontSize line2 /\
    Spec.run_of tg =
      Spec.cornerTextRun (Spec.isLowerCorner v) (Z2F fontSize) line1 line2 /\
    Spec.run_of tc =
      Spec.cornerTextRun (Spec.isLowerCorner v)
        (Z2F (Spec.effectiveFontSize fontSize line2)) line1 line2 /\
    (Spec.two_line line2 = false ->
     Spec.run_of tg = Spec.run_of tc /\
     text_font_size tg = text_font_size tc).
Proof.
  set (d_x := (Py.min width height * xFrac)%float) in *.
  set (d_y := (Py.min width height * yFrac)%float) in *.
  set (a := Spec.anchor v width height d_x d_y) in *.
  destruct (grid_writeSvg_single_ok file_name width height xFrac yFrac
              fontSize line1 line2 Hgrid)
    as [g0 [g1 [g2 [g3 [G0 [G1 [G2 [G3 Gw]]]]]]]].
  destruct (writeSvg_ok file_name width height xFrac yFrac fontSize
              line1 line2 Hcorner)
    as [c0 [c1 [c2 [c3 [C0 [C1 [C2 [C3 Cw]]]]]]]].
  fold d_x d_y in G0, G1, G2, G3, C0, C1, C2, C3.
  destruct (grid_single_cell width height (fst a) (snd a) fontSize
              (Spec.textAnchor v) (Spec.gridBaseline v)
              (Spec.isLowerCorner v) line1 line2 Hgrid)
    as [g [tg [Hg [Hgw [Hgh [Hgt [_ [Hgx [Hgy [Hga [Hgb [Hgf Hgr]]]]]]]]]]]].
  destruct (create_svg_corners_shape width height (fst a) (snd a) fontSize
              (Spec.textAnchor v) (Spec.baseline v) (Spec.isLowerCorner v)
              line1 line2 Hcorner)
    as [c [tc [Hc [Hcw [Hch [Hce [Hcx [Hcy [Hca [Hcb [Hcf [Hcr _]]]]]]]]]]]].
  subst a.
  rewrite <- grid_svg_content_variant in Hg.
  rewrite <- svg_content_variant in Hc.
  rewrite mul_one_r in Hgw, Hgh.
  rewrite (add_mul_zero _ width Hwidth Hx) in Hgx.
  rewrite (add_mul_zero _ height Hheight Hy) in Hgy.
  eexists. eexists.
  exists (file_name ++ nth (Z.to_nat (Spec.variant_index v))
                         corner_label_generator_grid2.names "")%string.
  exists (file_name ++ nth (Z.to_nat (Spec.variant_index v))
                         corner_label_generator.names "")%string.
  exists g, c, tg, tc.
  split; [exact Gw |]. split; [exact Cw |].
  split.
  { destruct v; cbn [Spec.variant_index] in Hg |- *;
      [ rewrite G0 in Hg | rewrite G1 in Hg
      | rewrite G2 in Hg | rewrite G3 in Hg ];
      injection Hg as <-; reflexivity. }
  split.
  { destruct v; cbn [Spec.variant_index] in Hc |- *;
      [ rewrite C0 in Hc | rewrite C1 in Hc
      | rewrite C2 in Hc | rewrite C3 in Hc ];
      injection Hc as <-; reflexivity. }
  rewrite Hce. cbn [texts].
  split; [now rewrite Hgw, Hcw |].
  split; [now rewrite Hgh, Hch |].
  split; [exact Hgt |]. split; [reflexivity |].
  split; [now rewrite Hgx, Hcx |].
  split; [now rewrite Hgy, Hcy |].
  split; [now rewrite Hga, Hca |].
  split; [exact Hgb |]. split; [exact Hcb |].
  split; [exact Hgf |]. split; [exact Hcf |].
  split; [exact Hgr |]. split; [exact Hcr |].
  intros Hone. rewrite Hgr, Hcr, Hgf, Hcf.
  unfold Spec.effectiveFontSize. rewrite Hone. split; reflexivity.
Qed.

Lemma grid_single_cell_geometry_witness :
  exists gfiles cfiles gname cname g c tg tc,
    corner_label_generator_grid2.writeSvg "Treeline" 1 1 139.7 203.2
      28 "Broken Mountain" (Some "Sisters, Kansas") 0.12 0.12 = Ok gfiles /\
    corner_label_generator.writeSvg "Treeline" 139.7 203.2 0.12 0.12
      28 "Broken Mountain" (Some "Sisters, Kansas") = Ok cfiles /\
    nth_error gfiles 2 = Some (gname, g) /\
    nth_error cfiles 2 = Some (cname, c) /\
    svg_width g = svg_width c /\
    svg_height g = svg_height c /\
    texts (svg_elements g) = [tg] /\
    texts (svg_elements c) = [tc] /\
    text_x tg = text_x tc /\
    text_y tg = text_y tc /\
    text_anchor tg = text_anchor tc /\
    dominant_baseline tg = "text-bottom" /\
    dominant_baseline tc = "central" /\
    text_font_size tg = 28 /\
    text_font_size tc = 26 /\
    Spec.run_of tg =
      [ (Float 1.2, Some "Sisters, Kansas");
        (Float (-1.2 * 28), Some "Broken Mountain") ] /\
    Spec.run_of tc =
      [ (Float 1.2, Some "Sisters, Kansas");
        (Float (-1.2 * 26), Some "Broken Mountain") ] /\
    (Spec.two_line (Some "Sisters, Kansas") = false ->
     Spec.run_of tg = Spec.run_of tc /\
     text_font_size tg = text_font_size tc).
Proof.
  apply (grid_single_cell_geometry Spec.BottomLeft "Treeline"
           139.7 203.2 0.12 0.12 28
           "Broken Mountain" (Some "Sisters, Kansas")).
  - intros _. vm_compute. reflexivity.
  - intros _. vm_compute. reflexivity.
  - vm_compute. reflexivity.
  - vm_compute. reflexivity.
  - vm_compute. reflexivity.
  - vm_compute. reflexivity.
Defined.

(** * Further properties of the code *)

(** ** The corner engine: edge cases and errors *)

(** X1: a second line that is None or the empty string gives the
    single-line document, the same one whatever the lower_corner flag is, with
    the font size as given; such a call never raises, however large the font
    size. *)
Theorem create_svg_corners_falsy_second_line
    (width height x y : float) (fontSize : Z)
    (text_anchor dominant_baseline : string) (lower_corner : bool)
    (label_line1 : string) (label_line2 : option string)
    (Hfalsy : truthy label_line2 = false) :
  exists t,
    create_svg_corners width height x y fontSize text_anchor
      dominant_baseline lower_corner label_line1 label_line2
    = Ok (mkSVG (mm width) (mm height)
            [ ERect (mkRect (Int 0) (Int 0) (mm width) (mm height)
                       "white" "red");
              EText t ]) /\
    create_svg_corners width height x y fontSize text_anchor
      dominant_baseline (negb lower_corner) label_line1 None
    = create_svg_corners width height x y fontSize text_anchor
        dominant_baseline lower_corner label_line1 label_line2 /\
    text_font_size t = fontSize /\
    text_elements t =
      Some [ Some (mkTSpan (mm x) (Float 1.2) (Some label_line1)); None ].
Proof.
  unfold create_svg_corners. rewrite Hfalsy. cbn [truthy].
  rewrite !andb_false_r. cbn [bind].
  eexists. repeat split.
Qed.

Lemma create_svg_corners_falsy_second_line_witness :
  exists t,
    create_svg_corners 139.7 203.2 16.764 186.436 (2 ^ 2000) "start"
      "central" true "Alabama" (Some "")
    = Ok (mkSVG (mm 139.7) (mm 203.2)
            [ ERect (mkRect (Int 0) (Int 0) (mm 139.7) (mm 203.2)
                       "white" "red");
              EText t ]) /\
    create_svg_corners 139.7 203.2 16.764 186.436 (2 ^ 2000) "start"
      "central" (negb true) "Alabama" None
    = create_svg_corners 139.7 203.2 16.764 186.436 (2 ^ 2000) "start"
        "central" true "Alabama" (Some "") /\
    text_font_size t = 2 ^ 2000 /\
    text_elements t =
      Some [ Some (mkTSpan (mm 16.764) (Float 1.2) (Some "Alabama")); None ].
Proof.
  apply (create_svg_corners_falsy_second_line 139.7 203.2 16.764 186.436
           (2 ^ 2000) "start" "central" true "Alabama" (Some "")).
  reflexivity.
Defined.

(** X2: the only way [create_svg_corners] fails is with OverflowError, and it
    does so exactly when the label has a second line and fontSize - 2 is, in
    magnitude, 2^1024 - 2^970 or more. *)
Theorem create_svg_corners_raises_iff
    (width height x y : float) (fontSize : Z)
    (text_anchor dominant_baseline : string) (lower_corner : bool)
    (label_line1 : string) (label_line2 : option string) (e : exn) :
  create_svg_corners width height x y fontSize text_anchor
    dominant_baseline lower_corner label_line1 label_line2 = Raise e
  <->
  (e = OverflowError /\
   truthy label_line2 = true /\
   float_overflow <= Z.abs (fontSize - 2)).
Proof.
  split.
  - intros Hraise.
    destruct (truthy label_line2) eqn:Htwo.
    + destruct (Z_lt_le_dec (Z.abs (fontSize - 2)) float_overflow)
        as [Hsmall | Hbig].
      * destruct (create_svg_corners_shape width height x y fontSize
                    text_anchor dominant_baseline lower_corner label_line1
                    label_line2 (fun _ => Hsmall))
          as [doc [t [Hdoc _]]].
        rewrite Hdoc in Hraise. discriminate Hraise.
      * rewrite (create_svg_corners_overflow width height x y fontSize
                   text_anchor dominant_baseline lower_corner label_line1
                   label_line2 Htwo Hbig) in Hraise.
        injection Hraise as <-. auto.
    + destruct (create_svg_corners_shape width height x y fontSize
                  text_anchor dominant_baseline lower_corner label_line1
                  label_line2) as [doc [t [Hdoc _]]].
      { unfold Spec.two_line. rewrite Htwo. discriminate. }
      rewrite Hdoc in Hraise. discriminate Hraise.
  - intros [-> [Htwo Hbig]].
    now apply create_svg_corners_overflow.
Qed.

Lemma writeSvg_ok_elements
    (file_name : string) (width height xFrac yFrac : float) (fontSize : Z)
    (label_line1 : string) (label_line2 : option string) :
  (Spec.two_line label_line2 = true ->
   Z.abs (fontSize - 2) < float_overflow) ->
  exists files,
    corner_label_generator.writeSvg file_name width height xFrac yFrac
      fontSize label_line1 label_line2 = Ok files /\
    map fst files =
      map (fun suffix => (file_name ++ suffix)%string)
        corner_label_generator.names /\
    Forall (fun f =>
              exists t,
                svg_elements (snd f) =
                  [ ERect (mkRect (Int 0) (Int 0) (mm width) (mm height)
                             "white" "red");
                    EText t ])
      files.
Proof.
  intros Hconv.
  destruct (writeSvg_ok file_name width height xFrac yFrac fontSize
              label_line1 label_line2 Hconv)
    as [d0 [d1 [d2 [d3 [H0 [H1 [H2 [H3 Hw]]]]]]]].
  eexists. split; [exact Hw |]. split; [reflexivity |].
  assert (Hone : forall (u : Spec.CornerVariant) (d : SVG),
             corner_label_generator.svg_content (Spec.variant_index u)
               width height (Py.min width height * xFrac)
               (Py.min width height * yFrac) fontSize
               label_line1 label_line2 = Ok d ->
             exists t,
               svg_elements d =
                 [ ERect (mkRect (Int 0) (Int 0) (mm width) (mm height)
                            "white" "red");
                   EText t ]).
  { intros u d Hd. rewrite svg_content_variant in Hd.
    destruct (create_svg_corners_shape width height
                (fst (Spec.anchor u width height
                        (Py.min width height * xFrac)
                        (Py.min width height * yFrac)))
                (snd (Spec.anchor u width height
                        (Py.min width height * xFrac)
                        (Py.min width height * yFrac)))
                fontSize (Spec.textAnchor u) (Spec.baseline u)
                (Spec.isLowerCorner u) label_line1 label_line2 Hconv)
      as [doc [t [Hdoc [_ [_ [Hel _]]]]]].
    rewrite Hdoc in Hd. injection Hd as <-. now exists t. }
  repeat constructor; cbn [snd].
  - exact (Hone Spec.TopLeft d0 H0).
  - exact (Hone Spec.TopRight d1 H1).
  - exact (Hone Spec.BottomLeft d2 H2).
  - exact (Hone Spec.BottomRight d3 H3).
Qed.


(** ** Binary64 facts: sign of a product, order of positive floats *)

Lemma binary_round_aux_negb (s : bool) (m e : Z) (l : location) :
  binary_round_aux prec emax (negb s) m e l
  = SFopp (binary_round_aux prec emax s m e l).
Proof.
  unfold binary_round_aux.
  destruct (shr_fexp prec emax m e l) as [mrs' e'].
  destruct (shr_fexp prec emax _ e' loc_Exact) as [mrs'' e''].
  destruct (shr_m mrs''); [reflexivity | | reflexivity].
  destruct (e'' <=? emax - prec); reflexivity.
Qed.

Lemma SFmul_opp_l (x y : spec_float) :
  SFmul prec emax (SFopp x) y = SFopp (SFmul prec emax x y).
Proof.
  destruct x as [sx | sx | | sx mx ex], y as [sy | sy | | sy my ey];
    cbn [SFmul SFopp]; try reflexivity;
    try (now rewrite <- negb_xorb_l).
  rewrite <- negb_xorb_l. apply binary_round_aux_negb.
Qed.

(** [(-a) * f = -(a * f)] for all floats. *)
Lemma mul_opp_l (a f : float) : (- a * f)%float = (- (a * f))%float.
Proof.
  apply Prim2SF_inj.
  rewrite mul_spec, !opp_spec, mul_spec. apply SFmul_opp_l.
Qed.

Lemma compare_cont_swap (p q : positive) :
  Pos.compare_cont Eq q p = CompOpp (Pos.compare_cont Eq p q).
Proof. symmetry. apply (Pos.compare_cont_antisym p q Eq). Qed.

Lemma SFcompare_pos_antisym (x y : spec_float) :
  SFltb (S754_zero false) x = true ->
  SFltb (S754_zero false) y = true ->
  SFltb x y = false -> SFltb y x = false -> x = y.
Proof.
  unfold SFltb.
  destruct x as [sx | sx | | sx mx ex], y as [sy | sy | | sy my ey];
    cbn [SFcompare]; try discriminate;
    destruct sx, sy; try discriminate; try reflexivity.
  intros _ _.
  rewrite (Z.compare_antisym ex ey), (compare_cont_swap mx my).
  destruct (ex ?= ey) eqn:He; cbn [CompOpp]; try discriminate.
  apply Z.compare_eq in He. subst ey.
  destruct (Pos.compare_cont Eq mx my) eqn:Hm; cbn [CompOpp];
    try discriminate.
  intros _ _. f_equal. now apply Pos.compare_eq.
Qed.

(** [min(w, h) = min(h, w)] for positive floats (for a zero of each sign,
    or a NaN, Python's [min] returns its first argument either way). *)
Lemma py_min_comm (w h : float) :
  PrimFloat.ltb 0 w = true -> PrimFloat.ltb 0 h = true ->
  Py.min w h = Py.min h w.
Proof.
  intros Hw Hh. unfold Py.min.
  rewrite ltb_spec in Hw, Hh.
  change (Prim2SF 0) with (S754_zero false) in Hw, Hh.
  destruct (PrimFloat.ltb h w) eqn:Hhw, (PrimFloat.ltb w h) eqn:Hwh;
    try reflexivity.
  - exfalso. rewrite ltb_spec in Hhw, Hwh. revert Hhw Hwh. unfold SFltb.
    destruct (Prim2SF w) as [sx | sx | | sx mx ex],
             (Prim2SF h) as [sy | sy | | sy my ey];
      cbn [SFcompare]; try discriminate;
      try (destruct sx, sy; discriminate).
    destruct sx, sy; try discriminate;
      rewrite (Z.compare_antisym ex ey), (compare_cont_swap mx my);
      destruct (ex ?= ey); cbn [CompOpp]; try discriminate;
      destruct (Pos.compare_cont Eq mx my); cbn [CompOpp]; discriminate.
  - apply Prim2SF_inj. rewrite ltb_spec in Hhw, Hwh.
    now apply SFcompare_pos_antisym.
Qed.

(** X4: for a two-line label the lower-corner text run is the upper-corner
    run with the lines swapped and the spacing negated: if the upper corner
    puts line 2 at dy = d below line 1, the lower corner puts line 1 at
    dy = -d after line 2, with the same reduced font size. *)
Theorem corner_lower_run_mirrors_upper
    (width height x y : float) (fontSize : Z)
    (text_anchor dominant_baseline : string)
    (label_line1 : string) (label_line2 : option string)
    (Htwo : truthy label_line2 = true)
    (Hconv : Z.abs (fontSize - 2) < float_overflow) :
  exists upper lower tu tl d,
    create_svg_corners width height x y fontSize text_anchor
      dominant_baseline false label_line1 label_line2 = Ok upper /\
    create_svg_corners width height x y fontSize text_anchor
      dominant_baseline true label_line1 label_line2 = Ok lower /\
    texts (svg_elements upper) = [tu] /\
    texts (svg_elements lower) = [tl] /\
    Spec.run_of tu =
      [ (Float 1.2, Some label_line1); (Float d, label_line2) ] /\
    Spec.run_of tl =
      [ (Float 1.2, label_line2); (Float (- d), Some label_line1) ] /\
    text_font_size tu = fontSize - 2 /\
    text_font_size tl = fontSize - 2.
Proof.
  unfold create_svg_corners. rewrite Htwo. cbn [andb].
  rewrite (float_of_int_ok _ Hconv). cbn [bind].
  do 4 eexists. exists (1.2 * Z2F (fontSize - 2))%float.
  split; [reflexivity |]. split; [reflexivity |].
  cbn [svg_elements texts]. split; [reflexivity |]. split; [reflexivity |].
  unfold Spec.run_of. cbn.
  split; [reflexivity |]. split; [| split; reflexivity].
  rewrite <- mul_opp_l. reflexivity.
Qed.

Lemma corner_lower_run_mirrors_upper_witness :
  exists upper lower tu tl d,
    create_svg_corners 139.7 203.2 16.764 16.764 28 "start" "hanging" false
      "Broken Mountain" (Some "Sisters, Kansas") = Ok upper /\
    create_svg_corners 139.7 203.2 16.764 16.764 28 "start" "hanging" true
      "Broken Mountain" (Some "Sisters, Kansas") = Ok lower /\
    texts (svg_elements upper) = [tu] /\
    texts (svg_elements lower) = [tl] /\
    Spec.run_of tu = [ (Float 1.2, Some "Broken Mountain");
                       (Float d, Some "Sisters, Kansas") ] /\
    Spec.run_of tl = [ (Float 1.2, Some "Sisters, Kansas");
                       (Float (- d), Some "Broken Mountain") ] /\
    text_font_size tu = 28 - 2 /\
    text_font_size tl = 28 - 2.
Proof.
  apply (corner_lower_run_mirrors_upper 139.7 203.2 16.764 16.764 28
           "start" "hanging" "Broken Mountain" (Some "Sisters, Kansas")).
  - reflexivity.
  - vm_compute. reflexivity.
Defined.

(** X5: the inset does not depend on the orientation.  For a positive width
    and height, [writeSvg] on the artboard and on the artboard turned by a
    quarter (width and height exchanged) computes the same inset distances,
    so the two top-left labels have the same anchor. *)
Theorem inset_same_in_both_orientations
    (file_name : string) (width height xFrac yFrac : float) (fontSize : Z)
    (label_line1 : string) (label_line2 : option string)
    (Hwidth : PrimFloat.ltb 0 width = true)
    (Hheight : PrimFloat.ltb 0 height = true)
    (Hconv : Spec.two_line label_line2 = true ->
             Z.abs (fontSize - 2) < float_overflow) :
  exists portrait landscape np nl dp dl tp tl,
    corner_label_generator.writeSvg file_name width height xFrac yFrac
      fontSize label_line1 label_line2 = Ok portrait /\
    corner_label_generator.writeSvg file_name height width xFrac yFrac
      fontSize label_line1 label_line2 = Ok landscape /\
    nth_error portrait 0 = Some (np, dp) /\
    nth_error landscape 0 = Some (nl, dl) /\
    texts (svg_elements dp) = [tp] /\
    texts (svg_elements dl) = [tl] /\
    text_x tp = mm (Py.min width height * xFrac) /\
    text_y tp = mm (Py.min width height * yFrac) /\
    text_x tl = text_x tp /\
    text_y tl = text_y tp.
Proof.
  destruct (writeSvg_ok file_name width height xFrac yFrac fontSize
              label_line1 label_line2 Hconv)
    as [p0 [p1 [p2 [p3 [P0 [_ [_ [_ Pw]]]]]]]].
  destruct (writeSvg_ok file_name height width xFrac yFrac fontSize
              label_line1 label_line2 Hconv)
    as [l0 [l1 [l2 [l3 [L0 [_ [_ [_ Lw]]]]]]]].
  rewrite (py_min_comm height width Hheight Hwidth) in L0.
  change 0 with (Spec.variant_index Spec.TopLeft) in P0, L0.
  rewrite svg_content_variant in P0, L0. cbn [Spec.anchor fst snd] in P0, L0.
  destruct (create_svg_corners_shape width height
              (Py.min width height * xFrac) (Py.min width height * yFrac)
              fontSize (Spec.textAnchor Spec.TopLeft)
              (Spec.baseline Spec.TopLeft) (Spec.isLowerCorner Spec.TopLeft)
              label_line1 label_line2 Hconv)
    as [dp [tp [Hdp [_ [_ [Hep [Hxp [Hyp _]]]]]]]].
  destruct (create_svg_corners_shape height width
              (Py.min width height * xFrac) (Py.min width height * yFrac)
              fontSize (Spec.textAnchor Spec.TopLeft)
              (Spec.baseline Spec.TopLeft) (Spec.isLowerCorner Spec.TopLeft)
              label_line1 label_line2 Hconv)
    as [dl [tl [Hdl [_ [_ [Hel [Hxl [Hyl _]]]]]]]].
  rewrite Hdp in P0. injection P0 as <-.
  rewrite Hdl in L0. injection L0 as <-.
  do 8 eexists.
  split; [exact Pw |]. split; [exact Lw |].
  split; [reflexivity |]. split; [reflexivity |].
  rewrite Hep, Hel. cbn [texts].
  split; [reflexivity |]. split; [reflexivity |].
  rewrite Hxp, Hyp, Hxl, Hyl. repeat split.
Qed.

Lemma inset_same_in_both_orientations_witness :
  exists portrait landscape np nl dp dl tp tl,
    corner_label_generator.writeSvg "Treeline" 139.7 203.2 0.12 0.12
      28 "Broken Mountain" (Some "Sisters, Kansas") = Ok portrait /\
    corner_label_generator.writeSvg "Treeline" 203.2 139.7 0.12 0.12
      28 "Broken Mountain" (Some "Sisters, Kansas") = Ok landscape /\
    nth_error portrait 0 = Some (np, dp) /\
    nth_error landscape 0 = Some (nl, dl) /\
    texts (svg_elements dp) = [tp] /\
    texts (svg_elements dl) = [tl] /\
    text_x tp = mm (Py.min 139.7 203.2 * 0.12) /\
    text_y tp = mm (Py.min 139.7 203.2 * 0.12) /\
    text_x tl = text_x tp /\
    text_y tl = text_y tp.
Proof.
  apply (inset_same_in_both_orientations "Treeline" 139.7 203.2 0.12 0.12
           28 "Broken Mountain" (Some "Sisters, Kansas")).
  - reflexivity.
  - reflexivity.
  - intros _. vm_compute. reflexivity.
Defined.

(** ** The grid engine: where the labels go, and the degenerate grids *)

Lemma range_nonpositive (n : Z) : n <= 0 -> range n = [].
Proof.
  intros Hn. unfold range.
  replace (Z.to_nat n) with 0%nat by lia. reflexivity.
Qed.

Lemma range_positive (n : Z) : 1 <= n -> exists tl, range n = 0 :: tl.
Proof.
  intros Hn. unfold range.
  destruct (Z.to_nat n) as [| k] eqn:Hk; [lia |].
  cbn [seq map]. now eexists.
Qed.

Lemma map_flat_map_comm {A B C : Type} (f : B -> C) (g : A -> list B)
    (l : list A) :
  map f (flat_map g l) = flat_map (fun a => map f (g a)) l.
Proof.
  induction l as [| a l IH]; [reflexivity |].
  cbn [flat_map]. now rewrite map_app, IH.
Qed.

Lemma length_flat_map_const {A B : Type} (g : A -> list B) (n : nat)
    (l : list A) :
  (forall a, List.length (g a) = n) ->
  List.length (flat_map g l) = (List.length l * n)%nat.
Proof.
  intros Hg. induction l as [| a l IH]; [reflexivity |].
  cbn [flat_map List.length Nat.mul]. now rewrite length_app, Hg, IH.
Qed.

Lemma for_each_no_rows {A S : Type} (l : list A)
    (body : A -> Z -> S -> result S) (s : S) :
  for_each l (fun a => for_each [] (body a)) s = Ok s.
Proof.
  induction l as [| a l IH]; [reflexivity |].
  cbn [for_each bind]. exact IH.
Qed.

Section GridLayout.

Variables (width height x y : float) (fontSize : Z).
Variables (text_anchor dominant_baseline : string) (lower_corner : bool).
Variables (label_line1 : string) (label_line2 : option string).

Hypothesis Hfont :
  Spec.two_line label_line2 = true -> Z.abs fontSize < float_overflow.

(** What every label of the grid has in common. *)
Lemma grid_rows_layout (column : Z) (rs : list Z) :
  Z.abs column < float_overflow ->
  Forall (fun z => Z.abs z < float_overflow) rs ->
  forall (ci : Z) (els : list Element),
    0 <= ci ->
    ci + Z.of_nat (List.length rs) <= 3 ->
    exists ts,
      for_each rs
        (grid_cell width height x y fontSize text_anchor dominant_baseline
           lower_corner label_line1 label_line2 column)
        (ci, els)
      = Ok (ci + Z.of_nat (List.length rs), (els ++ map EText ts)%list) /\
      map Layout.text_xy ts =
        map (fun row => Layout.cell_anchor width height x y (column, row))
          rs /\
      Forall (fun t =>
                svg.text_anchor t = text_anchor /\
                svg.dominant_baseline t = dominant_baseline /\
                text_font_size t = fontSize /\
                Spec.run_of t =
                  Spec.cornerTextRun lower_corner (Z2F fontSize)
                    label_line1 label_line2)
        ts.
Proof.
  intros Hc Hrs.
  induction Hrs as [| r rs Hr Hrs IH]; intros ci els Hci Hle.
  - exists []. cbn [List.length for_each Z.of_nat map].
    rewrite Z.add_0_r, app_nil_r. auto.
  - cbn [for_each]. rewrite length_cons, Nat2Z.inj_succ in Hle |- *.
    destruct (grid_cell_ok width height x y fontSize text_anchor
                dominant_baseline lower_corner label_line1 label_line2
                Hfont column r ci els Hc Hr ltac:(lia))
      as [t [Hcell [_ [Htx [Hty [Hta [Hdb [Hfs [Hrun _]]]]]]]]].
    rewrite Hcell. cbn [bind].
    destruct (IH (ci + 1) (els ++ [EText t])%list ltac:(lia) ltac:(lia))
      as [ts [Hloop [Hxy Hall]]].
    exists (t :: ts). rewrite Hloop. split; [| split].
    + f_equal. f_equal; [lia |]. now rewrite <- app_assoc.
    + cbn [map]. rewrite Hxy. f_equal.
      unfold Layout.text_xy, Layout.cell_anchor. cbn [fst snd].
      now rewrite Htx, Hty.
    + constructor; [auto | exact Hall].
Qed.

Lemma grid_columns_layout (rs : list Z) (cs : list Z) :
  Forall (fun z => Z.abs z < float_overflow) rs ->
  Forall (fun z => Z.abs z < float_overflow) cs ->
  forall (ci : Z) (els : list Element),
    0 <= ci ->
    ci + Z.of_nat (List.length cs * List.length rs) <= 3 ->
    exists ts,
      for_each cs
        (fun column =>
           for_each rs
             (grid_cell width height x y fontSize text_anchor
                dominant_baseline lower_corner label_line1 label_line2
                column))
        (ci, els)
      = Ok (ci + Z.of_nat (List.length cs * List.length rs),
            (els ++ map EText ts)%list) /\
      map Layout.text_xy ts =
        flat_map
          (fun column =>
             map (fun row =>
                    Layout.cell_anchor width height x y (column, row)) rs)
          cs /\
      Forall (fun t =>
                svg.text_anchor t = text_anchor /\
                svg.dominant_baseline t = dominant_baseline /\
                text_font_size t = fontSize /\
                Spec.run_of t =
                  Spec.cornerTextRun lower_corner (Z2F fontSize)
                    label_line1 label_line2)
        ts.
Proof.
  intros Hrs Hcs.
  induction Hcs as [| c cs Hc Hcs IH]; intros ci els Hci Hle.
  - exists []. cbn [List.length for_each Nat.mul Z.of_nat map flat_map].
    rewrite Z.add_0_r, app_nil_r. auto.
  - cbn [for_each List.length Nat.mul flat_map] in Hle |- *.
    rewrite Nat2Z.inj_add in Hle |- *.
    destruct (grid_rows_layout c rs Hc Hrs ci els Hci ltac:(lia))
      as [ts1 [Hloop1 [Hxy1 Hall1]]].
    rewrite Hloop1. cbn [bind].
    destruct (IH (ci + Z.of_nat (List.length rs))
                (els ++ map EText ts1)%list ltac:(lia) ltac:(lia))
      as [ts2 [Hloop2 [Hxy2 Hall2]]].
    exists (ts1 ++ ts2)%list. rewrite Hloop2. split; [| split].
    + f_equal. f_equal; [lia |]. now rewrite map_app, app_assoc.
    + now rewrite map_app, Hxy1, Hxy2.
    + apply Forall_app. split; assumption.
Qed.

End GridLayout.

(** X6: a grid of one to three cells is drawn on a canvas of
    width * columns by height * rows; after the background rectangle of that
    size come the labels, column by column and within a column from the top
    row down, the label of cell (row, column) anchored at
    (x + width * column, y + height * row); every label has the text anchor,
    the baseline and the font size the call was given and the corner
    engine's line order computed with that unreduced font size. *)
Theorem grid_layout
    (rows columns : Z) (width height x y : float) (fontSize : Z)
    (text_anchor dominant_baseline : string) (lower_corner : bool)
    (label_line1 : string) (label_line2 : option string)
    (Hrows : 1 <= rows)
    (Hcolumns : 1 <= columns)
    (Hcells : rows * columns <= 3)
    (Hfont : Spec.two_line label_line2 = true ->
             Z.abs fontSize < float_overflow) :
  exists doc,
    create_svg_corners_grid rows columns width height x y fontSize
      text_anchor dominant_baseline lower_corner label_line1 label_line2
    = Ok doc /\
    svg_width doc = mm (width * Z2F columns) /\
    svg_height doc = mm (height * Z2F rows) /\
    hd_error (svg_elements doc) =
      Some (ERect (mkRect (Int 0) (Int 0) (mm (width * Z2F columns))
                     (mm (height * Z2F rows)) "white" "red")) /\
    map Layout.text_xy (texts (svg_elements doc)) =
      map (Layout.cell_anchor width height x y)
        (Layout.grid_cells rows columns) /\
    List.length (svg_elements doc) = S (Z.to_nat (rows * columns)) /\
    Forall (fun t =>
              svg.text_anchor t = text_anchor /\
              svg.dominant_baseline t = dominant_baseline /\
              text_font_size t = fontSize /\
              Spec.run_of t =
                Spec.cornerTextRun lower_corner (Z2F fontSize)
                  label_line1 label_line2)
      (texts (svg_elements doc)).
Proof.
  assert (Hsmall : 3 < float_overflow) by (vm_compute; reflexivity).
  assert (Hr3 : rows <= 3) by nia.
  assert (Hc3 : columns <= 3) by nia.
  assert (Hr : Z.abs rows < float_overflow) by (rewrite Z.abs_eq; lia).
  assert (Hc : Z.abs columns < float_overflow) by (rewrite Z.abs_eq; lia).
  unfold create_svg_corners_grid, mul_float_int.
  rewrite (float_of_int_ok _ Hc), (float_of_int_ok _ Hr).
  cbn [bind].
  assert (Hn : Z.of_nat (List.length (range columns) *
                         List.length (range rows)) = rows * columns).
  { rewrite Nat2Z.inj_mul, !range_length by lia. lia. }
  destruct (grid_columns_layout width height x y fontSize text_anchor
              dominant_baseline lower_corner label_line1 label_line2 Hfont
              (range rows) (range columns)
              (range_convertible rows ltac:(lia))
              (range_convertible columns ltac:(lia))
              0
              [ERect (mkRect (Int 0) (Int 0) (mm (width * Z2F columns))
                        (mm (height * Z2F rows)) "white" "red")]
              ltac:(lia) ltac:(lia))
    as [ts [Hloop [Hxy Hall]]].
  rewrite Hloop. cbn [bind snd].
  eexists. split; [reflexivity |].
  cbn [svg_width svg_height svg_elements app hd_error texts].
  rewrite texts_map_EText.
  repeat (split; [reflexivity |]).
  split.
  { rewrite Hxy. unfold Layout.grid_cells.
    rewrite map_flat_map_comm. apply flat_map_ext. intros c.
    now rewrite map_map. }
  split; [| exact Hall].
  cbn [List.length]. f_equal.
  apply (f_equal (@List.length _)) in Hxy.
  rewrite !length_map in Hxy. rewrite length_map, Hxy.
  rewrite (length_flat_map_const _ (List.length (range rows)))
    by (intros c; apply length_map).
  lia.
Qed.

Lemma grid_layout_witness :
  exists doc,
    create_svg_corners_grid 1 3 139.7 203.2 16.764 16.764 28
      "start" "text-top" false "Broken Mountain" (Some "Sisters, Kansas")
    = Ok doc /\
    svg_width doc = mm (139.7 * Z2F 3) /\
    svg_height doc = mm (203.2 * Z2F 1) /\
    hd_error (svg_elements doc) =
      Some (ERect (mkRect (Int 0) (Int 0) (mm (139.7 * Z2F 3))
                     (mm (203.2 * Z2F 1)) "white" "red")) /\
    map Layout.text_xy (texts (svg_elements doc)) =
      map (Layout.cell_anchor 139.7 203.2 16.764 16.764)
        [(0, 0); (1, 0); (2, 0)] /\
    List.length (svg_elements doc) = 4%nat /\
    Forall (fun t =>
              svg.text_anchor t = "start" /\
              svg.dominant_baseline t = "text-top" /\
              text_font_size t = 28 /\
              Spec.run_of t =
                Spec.cornerTextRun false (Z2F 28)
                  "Broken Mountain" (Some "Sisters, Kansas"))
      (texts (svg_elements doc)).
Proof.
  apply (grid_layout 1 3 139.7 203.2 16.764 16.764 28
           "start" "text-top" false "Broken Mountain"
           (Some "Sisters, Kansas")).
  - lia.
  - lia.
  - lia.
  - intros _. vm_compute. reflexivity.
Defined.

(** X7: a grid with no row or no column (rows <= 0 or columns <= 0) is not
    an error: the call returns a document that holds the background
    rectangle and no label, on a canvas of width * columns by height * rows
    (zero or negative). *)
Theorem grid_without_cells
    (rows columns : Z) (width height x y : float) (fontSize : Z)
    (text_anchor dominant_baseline : string) (lower_corner : bool)
    (label_line1 : string) (label_line2 : option string)
    (Hrows : Z.abs rows < float_overflow)
    (Hcolumns : Z.abs columns < float_overflow)
    (Hempty : rows <= 0 \/ columns <= 0) :
  create_svg_corners_grid rows columns width height x y fontSize
    text_anchor dominant_baseline lower_corner label_line1 label_line2
  = Ok (mkSVG (mm (width * Z2F columns)) (mm (height * Z2F rows))
          [ ERect (mkRect (Int 0) (Int 0) (mm (width * Z2F columns))
                     (mm (height * Z2F rows)) "white" "red") ]).
Proof.
  unfold create_svg_corners_grid, mul_float_int.
  rewrite (float_of_int_ok _ Hcolumns), (float_of_int_ok _ Hrows).
  cbn [bind].
  destruct (Z_le_gt_dec columns 0) as [Hc | Hc].
  - rewrite (range_nonpositive columns Hc). reflexivity.
  - destruct Hempty as [Hr | Hc']; [| lia].
    rewrite (range_nonpositive rows Hr).
    rewrite for_each_no_rows. reflexivity.
Qed.

Lemma grid_without_cells_witness :
  create_svg_corners_grid 0 5 139.7 203.2 16.764 16.764 28
    "start" "text-top" false "Alabama" None
  = Ok (mkSVG (mm (139.7 * Z2F 5)) (mm (203.2 * Z2F 0))
          [ ERect (mkRect (Int 0) (Int 0) (mm (139.7 * Z2F 5))
                     (mm (203.2 * Z2F 0)) "white" "red") ]).
Proof.
  apply (grid_without_cells 0 5 139.7 203.2 16.764 16.764 28
           "start" "text-top" false "Alabama" None).
  - vm_compute. reflexivity.
  - vm_compute. reflexivity.
  - left. lia.
Defined.

(** X8: OverflowError in the grid engine.  A row or column count too large
    for a float raises it before anything is drawn; and with at least one
    cell, a two-line label whose font size is too large for a float raises it
    at the first label, also for a grid of more than three cells, where the
    palette would run out later. *)
Theorem grid_overflow
    (rows columns : Z) (width height x y : float) (fontSize : Z)
    (text_anchor dominant_baseline : string) (lower_corner : bool)
    (label_line1 : string) (label_line2 : option string) :
  (float_overflow <= Z.abs columns \/ float_overflow <= Z.abs rows ->
   create_svg_corners_grid rows columns width height x y fontSize
     text_anchor dominant_baseline lower_corner label_line1 label_line2
   = Raise OverflowError) /\
  (1 <= rows < float_overflow ->
   1 <= columns < float_overflow ->
   truthy label_line2 = true ->
   float_overflow <= Z.abs fontSize ->
   create_svg_corners_grid rows columns width height x y fontSize
     text_anchor dominant_baseline lower_corner label_line1 label_line2
   = Raise OverflowError).
Proof.
  split.
  - intros Hbig. unfold create_svg_corners_grid, mul_float_int.
    destruct (Z_lt_le_dec (Z.abs columns) float_overflow) as [Hc | Hc].
    + destruct Hbig as [Hbig | Hbig]; [lia |].
      rewrite (float_of_int_ok _ Hc), (float_of_int_overflow _ Hbig).
      reflexivity.
    + rewrite (float_of_int_overflow _ Hc). reflexivity.
  - intros Hrows Hcolumns Htwo Hbig.
    unfold create_svg_corners_grid, mul_float_int.
    rewrite (float_of_int_ok columns), (float_of_int_ok rows)
      by (rewrite Z.abs_eq; lia).
    cbn [bind].
    destruct (range_positive rows ltac:(lia)) as [rs ->].
    destruct (range_positive columns ltac:(lia)) as [cs ->].
    cbn [for_each]. unfold grid_cell at 1.
    change (float_of_int 0) with (Ok (Z2F 0)). cbn [bind].
    change (index colorArray 0) with (Ok "#0000FF").
    rewrite Htwo, (float_of_int_overflow _ Hbig).
    destruct lower_corner; reflexivity.
Qed.

Lemma grid_overflow_witness :
  create_svg_corners_grid 2 2 139.7 203.2 16.764 16.764 (2 ^ 1024)
    "start" "text-top" false "Broken Mountain" (Some "Sisters, Kansas")
  = Raise OverflowError.
Proof.
  apply (proj2 (grid_overflow 2 2 139.7 203.2 16.764 16.764 (2 ^ 1024)
                  "start" "text-top" false "Broken Mountain"
                  (Some "Sisters, Kansas"))).
  - vm_compute. split; [discriminate | reflexivity].
  - vm_compute. split; [discriminate | reflexivity].
  - reflexivity.
  - vm_compute. discriminate.
Defined.

(** ** The plaque engine: descenders, dimensions, errors *)

Lemma list_ascii_of_string_app (a b : string) :
  list_ascii_of_string (a ++ b) =
  (list_ascii_of_string a ++ list_ascii_of_string b)%list.
Proof.
  induction a as [| c a IH]; [reflexivity |].
  cbn [String.append list_ascii_of_string app]. now rewrite IH.
Qed.

(** X9: descender detection works part by part: a concatenation has a
    descender exactly when one of its parts has one, and the empty line has
    none. *)
Theorem has_descenders_app (a b : string) :
  has_descenders (a ++ b) = has_descenders a || has_descenders b /\
  has_descenders "" = false.
Proof.
  split; [| reflexivity].
  unfold has_descenders.
  now rewrite list_ascii_of_string_app, existsb_app.
Qed.

Lemma calculate_plaque_dimensions_locals_exact
    (fontSize : Z) (line1 : string) (line2 : option string) :
  Z.abs (Spec.maxLabelLength line1 line2 * fontSize) < float_overflow ->
  Z.abs fontSize < float_overflow ->
  Z.abs (Spec.textHeight fontSize line2) < float_overflow ->
  calculate_plaque_dimensions_locals fontSize line1 line2 =
  Ok (mkLocals (Spec.numLines line2) (Spec.maxLabelLength line1 line2)
        (Spec.textWidth fontSize line1 line2)
        (Spec.textHeight fontSize line2)
        (Spec.padding fontSize) (Spec.padding fontSize)
        (Spec.plaqueWidth fontSize line1 line2)
        (Spec.plaqueHeight fontSize line2)).
Proof.
  intros Hw Hf Hh.
  unfold calculate_plaque_dimensions_locals, mul_int_float, add_int_float.
  rewrite py_max_Zmax.
  fold (Spec.maxLabelLength line1 line2).
  fold (Spec.numLines line2).
  fold (Spec.textHeight fontSize line2).
  rewrite (float_of_int_ok _ Hw), (float_of_int_ok _ Hf),
    (float_of_int_ok _ Hh).
  reflexivity.
Qed.

Lemma calculate_plaque_dimensions_locals_overflow
    (fontSize : Z) (line1 : string) (line2 : option string) :
  float_overflow <= Z.abs (Spec.maxLabelLength line1 line2 * fontSize) \/
  float_overflow <= Z.abs fontSize \/
  float_overflow <= Z.abs (Spec.textHeight fontSize line2) ->
  calculate_plaque_dimensions_locals fontSize line1 line2
  = Raise OverflowError.
Proof.
  intros Hbig.
  unfold calculate_plaque_dimensions_locals, mul_int_float, add_int_float.
  rewrite py_max_Zmax.
  fold (Spec.maxLabelLength line1 line2).
  fold (Spec.numLines line2).
  fold (Spec.textHeight fontSize line2).
  destruct (Z_lt_le_dec
              (Z.abs (Spec.maxLabelLength line1 line2 * fontSize))
              float_overflow) as [Hw | Hw];
    [rewrite (float_of_int_ok _ Hw)
    | now rewrite (float_of_int_overflow _ Hw)].
  destruct (Z_lt_le_dec (Z.abs fontSize) float_overflow) as [Hf | Hf];
    [rewrite (float_of_int_ok _ Hf)
    | now rewrite (float_of_int_overflow _ Hf)].
  destruct Hbig as [Hbig | [Hbig | Hbig]]; [lia | lia |].
  cbn [bind]. now rewrite (float_of_int_overflow _ Hbig).
Qed.

(** X10: the plaque dimensions depend on the two lines only through the
    length of the longer one and through whether a second line is given; in
    particular exchanging the two lines of a two-line label leaves them
    unchanged. *)
Theorem plaque_dimensions_by_longest_line
    (fontSize : Z) (line1 line1' : string) (line2 line2' : option string)
    (Hlongest : Z.max (len line1) (len (or_empty line2)) =
                Z.max (len line1') (len (or_empty line2')))
    (Hgiven : line2 = None <-> line2' = None) :
  calculate_plaque_dimensions fontSize line1 line2 =
  calculate_plaque_dimensions fontSize line1' line2' /\
  (forall a b : string,
      calculate_plaque_dimensions fontSize a (Some b) =
      calculate_plaque_dimensions fontSize b (Some a)).
Proof.
  assert (Hgen : forall (l1 l1' : string) (l2 l2' : option string),
             Z.max (len l1) (len (or_empty l2)) =
             Z.max (len l1') (len (or_empty l2')) ->
             (l2 = None <-> l2' = None) ->
             calculate_plaque_dimensions fontSize l1 l2 =
             calculate_plaque_dimensions fontSize l1' l2').
  { intros l1 l1' l2 l2' Hmax Hnone.
    unfold calculate_plaque_dimensions, calculate_plaque_dimensions_locals.
    rewrite !py_max_Zmax, Hmax.
    destruct l2 as [s |], l2' as [s' |]; try reflexivity.
    - destruct Hnone as [_ Hn]. discriminate (Hn eq_refl).
    - destruct Hnone as [Hn _]. discriminate (Hn eq_refl). }
  split; [now apply Hgen |].
  intros a b. apply Hgen.
  - assert (Ha : len (or_empty (Some a)) = len a).
    { cbn [or_empty]. destruct (String.eqb_spec a ""); now subst. }
    assert (Hb : len (or_empty (Some b)) = len b).
    { cbn [or_empty]. destruct (String.eqb_spec b ""); now subst. }
    rewrite Ha, Hb. apply Z.max_comm.
  - split; discriminate.
Qed.

Lemma plaque_dimensions_by_longest_line_witness :
  calculate_plaque_dimensions 80 "Broken Mountain" (Some "Goopy") =
  calculate_plaque_dimensions 80 "Kansas" (Some "Sisters, Kansas") /\
  (forall a b : string,
      calculate_plaque_dimensions 80 a (Some b) =
      calculate_plaque_dimensions 80 b (Some a)).
Proof.
  apply (plaque_dimensions_by_longest_line 80 "Broken Mountain" "Kansas"
           (Some "Goopy") (Some "Sisters, Kansas")).
  - reflexivity.
  - split; discriminate.
Defined.

(** X11: the plaque engine fails only with OverflowError, and exactly when
    one of the three ints it converts is too large for a float: the longest
    length times the font size, the font size, or the font size times the
    number of lines.  [create_svg_plaque] fails in the same cases as
    [calculate_plaque_dimensions]. *)
Theorem plaque_raises_iff
    (fontSize : Z) (line1 : string) (line2 : option string) (e : exn) :
  let too_large :=
    float_overflow <= Z.abs (Spec.maxLabelLength line1 line2 * fontSize) \/
    float_overflow <= Z.abs fontSize \/
    float_overflow <= Z.abs (fontSize * Spec.numLines line2) in
  (calculate_plaque_dimensions fontSize line1 line2 = Raise e <->
   e = OverflowError /\ too_large) /\
  (create_svg_plaque fontSize line1 line2 = Raise e <->
   e = OverflowError /\ too_large).
Proof.
  intros too_large. subst too_large.
  fold (Spec.textHeight fontSize line2).
  destruct (Z_lt_le_dec
              (Z.abs (Spec.maxLabelLength line1 line2 * fontSize))
              float_overflow) as [Hw | Hw].
  2: { assert (Hraise := calculate_plaque_dimensions_locals_overflow
                           fontSize line1 line2 (or_introl Hw)).
       unfold create_svg_plaque, calculate_plaque_dimensions.
       rewrite Hraise. cbn [bind].
       split; (split; [intros H; injection H as <-; auto
                      | intros [-> _]; reflexivity]). }
  destruct (Z_lt_le_dec (Z.abs fontSize) float_overflow) as [Hf | Hf].
  2: { assert (Hraise := calculate_plaque_dimensions_locals_overflow
                           fontSize line1 line2 (or_intror (or_introl Hf))).
       unfold create_svg_plaque, calculate_plaque_dimensions.
       rewrite Hraise. cbn [bind].
       split; (split; [intros H; injection H as <-; auto
                      | intros [-> _]; reflexivity]). }
  destruct (Z_lt_le_dec (Z.abs (Spec.textHeight fontSize line2))
              float_overflow) as [Hh | Hh].
  2: { assert (Hraise := calculate_plaque_dimensions_locals_overflow
                           fontSize line1 line2 (or_intror (or_intror Hh))).
       unfold create_svg_plaque, calculate_plaque_dimensions.
       rewrite Hraise. cbn [bind].
       split; (split; [intros H; injection H as <-; auto
                      | intros [-> _]; reflexivity]). }
  unfold create_svg_plaque, calculate_plaque_dimensions.
  rewrite (calculate_plaque_dimensions_locals_exact _ _ _ Hw Hf Hh).
  cbn [bind plaque_width plaque_height].
  unfold mul_float_int. rewrite (float_of_int_ok _ Hf).
  split; (split; [| intros [_ [H | [H | H]]]; lia]).
  - discriminate.
  - destruct (truthy line2); discriminate.
Qed.

Lemma or_empty_truthy (line2 : option string) :
  truthy line2 = false -> or_empty line2 = "".
Proof.
  destruct line2 as [s |]; [| reflexivity].
  cbn [truthy or_empty]. destruct (String.eqb s ""); [reflexivity |].
  discriminate.
Qed.

(** The elements of a plaque document: the rectangle, the four arcs, the
    text. *)
Lemma create_svg_plaque_elements
    (fontSize : Z) (line1 : string) (line2 : option string) :
  Spec.plaque_convertible fontSize line1 line2 ->
  let pw := Spec.plaqueWidth fontSize line1 line2 in
  let ph := Spec.plaqueHeight fontSize line2 in
  let px := Spec.plaqueOrigin pw in
  let py := Spec.plaqueOrigin ph in
  let r := (ph * 0.20)%float in
  exists t,
    create_svg_plaque fontSize line1 line2 =
    Ok (mkSVG (Float (Spec.artboard pw)) (Float (Spec.artboard ph))
          [ ERect (mkRect (Float px) (Float py) (Float pw) (Float ph)
                     "none" "red");
            EPath (mkPath [ M px (py + r); A r r 0 0 0 (px + r) py ]
                     "none" "red");
            EPath (mkPath [ M (px + pw - r) py;
                            A r r 0 0 0 (px + pw) (py + r) ]
                     "none" "red");
            EPath (mkPath [ M (px + r) (py + ph);
                            A r r 0 0 0 px (py + ph - r) ]
                     "none" "red");
            EPath (mkPath [ M (px + pw) (py + ph - r);
                            A r r 0 0 0 (px + pw - r) (py + ph) ]
                     "none" "red");
            EText t ]) /\
    text_x t = Float (Spec.plaqueCenterX px pw) /\
    text_y t = Float (Spec.plaqueBaselineY py ph fontSize line1 line2) /\
    text_font_size t = fontSize /\
    (if Spec.two_line line2
     then text_elements t =
            Some [ Some (mkTSpan (text_x t) (Float 1.2) (Some line1));
                   Some (mkTSpan (text_x t) (Int fontSize) line2) ] /\
          text_text t = None
     else text_elements t = None /\ text_text t = Some line1).
Proof.
  intros H pw ph px py r.
  destruct (plaque_convertible_conversions _ _ _ H) as [_ [Hf _]].
  unfold create_svg_plaque, calculate_plaque_dimensions.
  rewrite (calculate_plaque_dimensions_locals_ok _ _ _ H).
  cbn [bind plaque_width plaque_height].
  fold pw ph.
  unfold mul_float_int. rewrite (float_of_int_ok _ Hf).
  unfold Spec.plaqueBaselineY, Spec.yOffsetFactor, Spec.two_line,
    Spec.plaqueCenterX.
  destruct (truthy line2) eqn:Htwo.
  - destruct (has_descenders (str line2));
      eexists; (split; [reflexivity |]);
      cbn; rewrite ?Z.add_0_r;
      repeat split; destruct fontSize; reflexivity.
  - destruct (has_descenders line1);
      eexists; (split; [reflexivity |]);
      cbn; repeat split.
Qed.

(** X12: an empty string as second line is counted as a line by the
    dimensions but not by the text: the plaque gets the height of a two-line
    plaque (text height 2 * fontSize, against fontSize for no second line),
    while its text element is the single-line one, without TSpans. *)
Theorem plaque_empty_second_line
    (fontSize : Z) (line1 : string)
    (Hconv : Spec.plaque_convertible fontSize line1 (Some "")) :
  exists doc t width,
    create_svg_plaque fontSize line1 (Some "") = Ok doc /\
    texts (svg_elements doc) = [t] /\
    text_elements t = None /\
    text_text t = Some line1 /\
    calculate_plaque_dimensions fontSize line1 (Some "") =
      Ok (width, (Z2F (fontSize * 2) + 2 * (Z2F fontSize * 0.1))%float) /\
    calculate_plaque_dimensions fontSize line1 None =
      Ok (width, (Z2F (fontSize * 1) + 2 * (Z2F fontSize * 0.1))%float) /\
    svg_height doc =
      Float ((Z2F (fontSize * 2) + 2 * (Z2F fontSize * 0.1)) * 1.05).
Proof.
  destruct (create_svg_plaque_shape fontSize line1 (Some "") Hconv)
    as [doc [t [Hdoc [Hdims [_ [Hh [_ [Ht [_ [_ [_ [_ [_ Hrun]]]]]]]]]]]]].
  destruct (create_svg_plaque_shape fontSize line1 None Hconv)
    as [_ [_ [_ [Hdims' _]]]].
  cbn [Spec.two_line truthy String.eqb negb] in Hrun.
  destruct Hrun as [Hel Htx].
  exists doc, t, (Spec.plaqueWidth fontSize line1 None).
  split; [exact Hdoc |]. split; [exact Ht |].
  split; [exact Hel |]. split; [exact Htx |].
  split; [exact Hdims |]. split; [exact Hdims' |]. exact Hh.
Qed.

Lemma plaque_empty_second_line_witness :
  exists doc t width,
    create_svg_plaque 80 "Broken Mountain" (Some "") = Ok doc /\
    texts (svg_elements doc) = [t] /\
    text_elements t = None /\
    text_text t = Some "Broken Mountain" /\
    calculate_plaque_dimensions 80 "Broken Mountain" (Some "") =
      Ok (width, (Z2F (80 * 2) + 2 * (Z2F 80 * 0.1))%float) /\
    calculate_plaque_dimensions 80 "Broken Mountain" None =
      Ok (width, (Z2F (80 * 1) + 2 * (Z2F 80 * 0.1))%float) /\
    svg_height doc = Float ((Z2F (80 * 2) + 2 * (Z2F 80 * 0.1)) * 1.05).
Proof.
  apply (plaque_empty_second_line 80 "Broken Mountain").
  vm_compute. reflexivity.
Defined.

(** X13: on a two-line plaque the descenders of line 1 play no part: two
    first lines of the same length give the same canvas, the same outline and
    the same text position, whose y is decided by the descenders of line 2
    alone. *)
Theorem plaque_two_line_ignores_line1_descenders
    (fontSize : Z) (line1 line1' : string) (line2 : option string)
    (Htwo : truthy line2 = true)
    (Hlen : len line1 = len line1')
    (Hconv : Spec.plaque_convertible fontSize line1 line2) :
  exists d d' t t',
    create_svg_plaque fontSize line1 line2 = Ok d /\
    create_svg_plaque fontSize line1' line2 = Ok d' /\
    svg_width d = svg_width d' /\
    svg_height d = svg_height d' /\
    firstn 5 (svg_elements d) = firstn 5 (svg_elements d') /\
    texts (svg_elements d) = [t] /\
    texts (svg_elements d') = [t'] /\
    text_x t = text_x t' /\
    text_y t = text_y t' /\
    text_y t =
      Float (Spec.plaqueOrigin (Spec.plaqueHeight fontSize line2) +
             0.85 * (Spec.plaqueHeight fontSize line2 / 2 -
                     (if has_descenders (str line2) then 0.5 else 0.45) *
                     Z2F fontSize)).
Proof.
  assert (Hmax : Spec.maxLabelLength line1' line2 =
                 Spec.maxLabelLength line1 line2).
  { unfold Spec.maxLabelLength. now rewrite Hlen. }
  assert (Hconv' : Spec.plaque_convertible fontSize line1' line2).
  { unfold Spec.plaque_convertible in *. now rewrite Hmax. }
  assert (Hpw : Spec.plaqueWidth fontSize line1' line2 =
                Spec.plaqueWidth fontSize line1 line2).
  { unfold Spec.plaqueWidth, Spec.textWidth. now rewrite Hmax. }
  destruct (create_svg_plaque_elements fontSize line1 line2 Hconv)
    as [t [Hd [Hx [Hy _]]]].
  destruct (create_svg_plaque_elements fontSize line1' line2 Hconv')
    as [t' [Hd' [Hx' [Hy' _]]]].
  rewrite Hpw in Hd', Hx'.
  unfold Spec.plaqueBaselineY, Spec.yOffsetFactor, Spec.two_line in Hy, Hy'.
  rewrite Htwo in Hy, Hy'.
  do 2 eexists. exists t, t'.
  split; [exact Hd |]. split; [exact Hd' |].
  cbn [svg_width svg_height svg_elements firstn texts].
  repeat (split; [reflexivity |]).
  split; [now rewrite Hx, Hx' |].
  split; [now rewrite Hy, Hy' |].
  exact Hy.
Qed.

Lemma plaque_two_line_ignores_line1_descenders_witness :
  exists d d' t t',
    create_svg_plaque 80 "Goopy Pijen Rqual" (Some "Broken Mountain")
      = Ok d /\
    create_svg_plaque 80 "Broken Mountain, " (Some "Broken Mountain")
      = Ok d' /\
    svg_width d = svg_width d' /\
    svg_height d = svg_height d' /\
    firstn 5 (svg_elements d) = firstn 5 (svg_elements d') /\
    texts (svg_elements d) = [t] /\
    texts (svg_elements d') = [t'] /\
    text_x t = text_x t' /\
    text_y t = text_y t' /\
    text_y t =
      Float (Spec.plaqueOrigin
               (Spec.plaqueHeight 80 (Some "Broken Mountain")) +
             0.85 * (Spec.plaqueHeight 80 (Some "Broken Mountain") / 2 -
                     0.45 * Z2F 80)).
Proof.
  apply (plaque_two_line_ignores_line1_descenders 80
           "Goopy Pijen Rqual" "Broken Mountain, " (Some "Broken Mountain")).
  - reflexivity.
  - reflexivity.
  - vm_compute. reflexivity.
Defined.



(** The two ways a plaque call can end. *)
Lemma create_svg_plaque_cases
    (fontSize : Z) (line1 : string) (line2 : option string) :
  (exists doc pw ph,
      create_svg_plaque fontSize line1 line2 = Ok doc /\
      calculate_plaque_dimensions fontSize line1 line2 = Ok (pw, ph) /\
      svg_width doc = Float (pw * 1.05) /\
      svg_height doc = Float (ph * 1.05)) \/
  (create_svg_plaque fontSize line1 line2 = Raise OverflowError /\
   calculate_plaque_dimensions fontSize line1 line2 = Raise OverflowError).
Proof.
  destruct (Z_lt_le_dec
              (Z.abs (Spec.maxLabelLength line1 line2 * fontSize))
              float_overflow) as [Hw | Hw].
  2: { right. unfold create_svg_plaque, calculate_plaque_dimensions.
       now rewrite (calculate_plaque_dimensions_locals_overflow
                      fontSize line1 line2 (or_introl Hw)). }
  destruct (Z_lt_le_dec (Z.abs fontSize) float_overflow) as [Hf | Hf].
  2: { right. unfold create_svg_plaque, calculate_plaque_dimensions.
       now rewrite (calculate_plaque_dimensions_locals_overflow
                      fontSize line1 line2 (or_intror (or_introl Hf))). }
  destruct (Z_lt_le_dec (Z.abs (Spec.textHeight fontSize line2))
              float_overflow) as [Hh | Hh].
  2: { right. unfold create_svg_plaque, calculate_plaque_dimensions.
       now rewrite (calculate_plaque_dimensions_locals_overflow
                      fontSize line1 line2 (or_intror (or_intror Hh))). }
  left. unfold create_svg_plaque, calculate_plaque_dimensions.
  rewrite (calculate_plaque_dimensions_locals_exact _ _ _ Hw Hf Hh).
  cbn [bind plaque_width plaque_height].
  unfold mul_float_int. rewrite (float_of_int_ok _ Hf). cbn [bind].
  destruct (truthy line2); do 3 eexists; repeat split.
Qed.

(** X15: [write_svg_plaque] either opens the SVG file, writes the plaque
    document into it and asks for a PNG of that same file, at 96 dpi and with
    exactly the width and height of the document written; or, when the font
    size is too large for a float, fails with OverflowError after it has
    opened the file (so the file is left created or emptied) and before
    anything is written or converted. *)
Theorem write_svg_plaque_effects
    (path_join : string -> string -> string)
    (path_splitext : string -> string * string)
    (output_folder file_name : string)
    (fontSize : Z) (line1 : string) (line2 : option string) :
  let svg_path := path_join output_folder (file_name ++ "_plaque.svg") in
  let png_path := (fst (path_splitext svg_path) ++ ".png")%string in
  (exists doc w h,
      create_svg_plaque fontSize line1 line2 = Ok doc /\
      svg_width doc = Float w /\
      svg_height doc = Float h /\
      write_svg_plaque path_join path_splitext output_folder file_name
        fontSize line1 line2 =
      ([ FileOpen svg_path; FileWrite svg_path doc;
         Svg2png svg_path png_path 96 w h ],
       Ok tt)) \/
  (create_svg_plaque fontSize line1 line2 = Raise OverflowError /\
   write_svg_plaque path_join path_splitext output_folder file_name
     fontSize line1 line2 =
   ([FileOpen svg_path], Raise OverflowError)).
Proof.
  intros svg_path png_path. unfold write_svg_plaque.
  fold svg_path. fold png_path.
  destruct (create_svg_plaque_cases fontSize line1 line2)
    as [[doc [pw [ph [Hdoc [Hdims [Hw Hh]]]]]] | [Hdoc Hdims]].
  - left. exists doc, (pw * 1.05)%float, (ph * 1.05)%float.
    rewrite Hdoc, Hdims. auto.
  - right. rewrite Hdoc. auto.
Qed.

(** ** The interactive script of corner_label_generator.py *)

(** X16: [get_values_from_input] reads one line and decides on the integer
    it holds.  0 to 5 select the preset of that key and read nothing more;
    6 reads five more lines, the custom width, height, two fractions and font
    size, in this order; any other integer raises ValueError.  In the preset
    table each odd key is the preceding even key with width and height
    exchanged. *)
Theorem get_values_from_input_choice
    (int_of_str : string -> option Z)
    (float_of_str : string -> option float)
    (line : string) (rest : list string) (n : Z)
    (Hparse : int_of_str line = Some n) :
  (0 <= n <= 5 ->
   exists v,
     lookup n input_mapping = Some v /\
     get_values_from_input int_of_str float_of_str (line :: rest)
     = inr (v, rest)) /\
  (n < 0 \/ 6 < n ->
   get_values_from_input int_of_str float_of_str (line :: rest)
   = inl ValueError) /\
  (n = 6 ->
   forall (lw lh lx ly lf : string) (rest' : list string)
          (w h xf yf : float) (fs : Z),
     rest = lw :: lh :: lx :: ly :: lf :: rest' ->
     float_of_str lw = Some w -> float_of_str lh = Some h ->
     float_of_str lx = Some xf -> float_of_str ly = Some yf ->
     int_of_str lf = Some fs ->
     get_values_from_input int_of_str float_of_str (line :: rest)
     = inr ((w, h, xf, yf, fs), rest')) /\
  (forall k w h xf yf fs,
     In k [0; 2; 4] ->
     lookup k input_mapping = Some (w, h, xf, yf, fs) ->
     lookup (k + 1) input_mapping = Some (h, w, xf, yf, fs)).
Proof.
  unfold get_values_from_input, io_bind, input.
  rewrite Hparse. cbn [io_of_option io_ret].
  split; [| split; [| split]].
  - intros Hn.
    assert (Hc : n = 0 \/ n = 1 \/ n = 2 \/ n = 3 \/ n = 4 \/ n = 5) by lia.
    destruct Hc as [-> | [-> | [-> | [-> | [-> | ->]]]]];
      eexists; split; reflexivity.
  - intros Hn.
    destruct (n =? 6) eqn:H6; [apply Z.eqb_eq in H6; lia |].
    assert (Hnone : lookup n input_mapping = None).
    { unfold input_mapping. cbn [lookup].
      repeat match goal with
             | |- context [n =? ?k] =>
                 destruct (Z.eqb_spec n k); [lia |]
             end.
      reflexivity. }
    now rewrite Hnone.
  - intros -> lw lh lx ly lf rest' w h xf yf fs -> Hw Hh Hx Hy Hf.
    cbn [Z.eqb Pos.eqb]. rewrite Hw. cbn [io_of_option io_ret].
    rewrite Hh. cbn [io_of_option io_ret].
    rewrite Hx. cbn [io_of_option io_ret].
    rewrite Hy. cbn [io_of_option io_ret].
    rewrite Hf. reflexivity.
  - intros k w h xf yf fs Hk Hlook.
    cbn [In] in Hk. destruct Hk as [<- | [<- | [<- | []]]];
      cbn in Hlook; injection Hlook as <- <- <- <- <-; reflexivity.
Qed.

Lemma get_values_from_input_choice_witness :
  (0 <= 3 <= 5 ->
   exists v,
     lookup 3 input_mapping = Some v /\
     get_values_from_input
       (fun s => if String.eqb s "3" then Some 3 else None)
       (fun _ => None) ["3"; "Alabama"; "0"]
     = inr (v, ["Alabama"; "0"])) /\
  (3 < 0 \/ 6 < 3 ->
   get_values_from_input
     (fun s => if String.eqb s "3" then Some 3 else None)
     (fun _ => None) ["3"; "Alabama"; "0"]
   = inl ValueError) /\
  (3 = 6 ->
   forall (lw lh lx ly lf : string) (rest' : list string)
          (w h xf yf : float) (fs : Z),
     ["Alabama"; "0"] = lw :: lh :: lx :: ly :: lf :: rest' ->
     None = Some w -> None = Some h ->
     None = Some xf -> None = Some yf ->
     (if String.eqb lf "3" then Some 3 else None) = Some fs ->
     get_values_from_input
       (fun s => if String.eqb s "3" then Some 3 else None)
       (fun _ => None) ["3"; "Alabama"; "0"]
     = inr ((w, h, xf, yf, fs), rest')) /\
  (forall k w h xf yf fs,
     In k [0; 2; 4] ->
     lookup k input_mapping = Some (w, h, xf, yf, fs) ->
     lookup (k + 1) input_mapping = Some (h, w, xf, yf, fs)).
Proof.
  apply (get_values_from_input_choice
           (fun s => if String.eqb s "3" then Some 3 else None)
           (fun _ => None) "3" ["Alabama"; "0"] 3).
  reflexivity.
Defined.




(** X18: with a second label that is neither "0" nor empty, the script names
    the output folder and the four files after label 1 immediately followed
    by label 2 (no separator), and the documents are the two-line ones of
    [writeSvg] for the two labels. *)
Theorem script_two_labels
    (int_of_str : string -> option Z)
    (float_of_str : string -> option float)
    (path_join : string -> string -> string)
    (stdin : list string)
    (width height xf yf : float) (fontSize : Z)
    (label1 label2 : string) (rest : list string)
    (Hvalues : get_values_from_input int_of_str float_of_str stdin
               = inr ((width, height, xf, yf, fontSize),
                      label1 :: label2 :: rest))
    (Hskip : label2 <> "0")
    (Hgiven : label2 <> "")
    (Hconv : Z.abs (fontSize - 2) < float_overflow) :
  exists files,
    script int_of_str float_of_str path_join stdin
    = inr ((path_join "C:\Users\maxim\Documents\Treeline\PNG\inkscape"
              (label1 ++ label2)%string, files), rest) /\
    corner_label_generator.writeSvg (label1 ++ label2)%string
      width height xf yf fontSize label1 (Some label2) = Ok files /\
    map fst files =
      map (fun suffix => ((label1 ++ label2) ++ suffix)%string)
        corner_label_generator.names.
Proof.
  destruct (writeSvg_ok_elements (label1 ++ label2)%string width height
              xf yf fontSize label1 (Some label2) (fun _ => Hconv))
    as [files [Hw [Hnames _]]].
  exists files.
  unfold script, io_bind. rewrite Hvalues.
  unfold get_labels_from_input, io_bind, input, io_ret.
  apply String.eqb_neq in Hskip, Hgiven.
  rewrite Hskip. cbn [negb truthy]. rewrite Hgiven. cbn [negb str].
  rewrite Hw. cbn [io_of_result io_ret].
  repeat split; assumption.
Qed.

Lemma script_two_labels_witness :
  exists files,
    script (fun s => if String.eqb s "1" then Some 1 else None)
      (fun _ => None) (fun a b => (a ++ "\" ++ b)%string)
      ["1"; "Broken Mountain"; "Sisters, Kansas"]
    = inr (((("C:\Users\maxim\Documents\Treeline\PNG\inkscape" ++ "\") ++
             "Broken Mountain" ++ "Sisters, Kansas")%string, files), []) /\
    corner_label_generator.writeSvg
      ("Broken Mountain" ++ "Sisters, Kansas")%string
      203.2 139.7 0.12 0.12 28 "Broken Mountain" (Some "Sisters, Kansas")
      = Ok files /\
    map fst files =
      map (fun suffix =>
             (("Broken Mountain" ++ "Sisters, Kansas") ++ suffix)%string)
        corner_label_generator.names.
Proof.
  apply (script_two_labels
           (fun s => if String.eqb s "1" then Some 1 else None)
           (fun _ => None) (fun a b => (a ++ "\" ++ b)%string)
           ["1"; "Broken Mountain"; "Sisters, Kansas"]
           203.2 139.7 0.12 0.12 28
           "Broken Mountain" "Sisters, Kansas" []).
  - reflexivity.
  - discriminate.
  - discriminate.
  - vm_compute. reflexivity.
Defined.

(** ** The grid engine: what [writeSvg] writes *)

Lemma create_svg_corners_grid_result
    (rows columns : Z) (width height x y : float) (fontSize : Z)
    (text_anchor dominant_baseline : string) (lower_corner : bool)
    (label_line1 : string) (label_line2 : option string) :
  1 <= rows < float_overflow ->
  1 <= columns < float_overflow ->
  (Spec.two_line label_line2 = true -> Z.abs fontSize < float_overflow) ->
  (rows * columns <= 3 ->
   exists doc,
     create_svg_corners_grid rows columns width height x y fontSize
       text_anchor dominant_baseline lower_corner label_line1 label_line2
     = Ok doc /\
     List.length (texts (svg_elements doc)) = Z.to_nat (rows * columns)) /\
  (3 < rows * columns ->
   create_svg_corners_grid rows columns width height x y fontSize
     text_anchor dominant_baseline lower_corner label_line1 label_line2
   = Raise IndexError).
Proof.
  intros Hrows Hcolumns Hfont.
  assert (Hr : Z.abs rows < float_overflow) by (rewrite Z.abs_eq; lia).
  assert (Hc : Z.abs columns < float_overflow) by (rewrite Z.abs_eq; lia).
  unfold create_svg_corners_grid, mul_float_int.
  rewrite (float_of_int_ok _ Hc), (float_of_int_ok _ Hr).
  cbn [bind].
  pose proof (grid_columns width height x y fontSize text_anchor
                dominant_baseline lower_corner label_line1 label_line2 Hfont
                (range rows) (range columns)
                (range_convertible rows (proj2 Hrows))
                (range_convertible columns (proj2 Hcolumns))
                0
                [ERect (mkRect (Int 0) (Int 0) (mm (width * Z2F columns))
                          (mm (height * Z2F rows)) "white" "red")]
                ltac:(lia)) as Hloop.
  cbv zeta in Hloop.
  assert (Hn : Z.of_nat (List.length (range columns) *
                         List.length (range rows)) = rows * columns).
  { rewrite Nat2Z.inj_mul, !range_length by lia. lia. }
  rewrite Hn in Hloop. destruct Hloop as [Hok Hout].
  split.
  - intros Hle. destruct (Hok ltac:(lia)) as [ts [Hrun Hfills]].
    rewrite Hrun. cbn [bind snd].
    eexists. split; [reflexivity |].
    cbn [svg_elements]. rewrite texts_app, texts_map_EText.
    cbn [texts app].
    apply (f_equal (@List.length _)) in Hfills.
    rewrite !length_map, length_seq in Hfills. lia.
  - intros Hgt. rewrite (Hout ltac:(lia)). reflexivity.
Qed.

(** X19: the grid's [writeSvg] writes its four files, named
    file_name + "_topLeftGrid.svg", "_topRightGrid.svg",
    "_bottomLeftGrid.svg", "_bottomRightGrid.svg", each with one label per
    cell, only for a grid of at most three cells; for four cells or more the
    first document already raises IndexError and the call writes nothing. *)
Theorem grid_writeSvg_all_or_nothing
    (file_name : string) (rows columns : Z) (width height : float)
    (fontSize : Z) (label_line1 : string) (label_line2 : option string)
    (xFrac yFrac : float)
    (Hrows : 1 <= rows < float_overflow)
    (Hcolumns : 1 <= columns < float_overflow)
    (Hfont : Spec.two_line label_line2 = true ->
             Z.abs fontSize < float_overflow) :
  (rows * columns <= 3 ->
   exists files,
     corner_label_generator_grid2.writeSvg file_name rows columns
       width height fontSize label_line1 label_line2 xFrac yFrac = Ok files /\
     map fst files =
       map (fun suffix => (file_name ++ suffix)%string)
         corner_label_generator_grid2.names /\
     Forall (fun f =>
               List.length (texts (svg_elements (snd f))) =
               Z.to_nat (rows * columns))
       files) /\
  (3 < rows * columns ->
   corner_label_generator_grid2.writeSvg file_name rows columns
     width height fontSize label_line1 label_line2 xFrac yFrac
   = Raise IndexError /\
   corner_label_generator_grid2.svg_content 0 rows columns width height
     (Py.min width height * xFrac) (Py.min width height * yFrac)
     fontSize label_line1 label_line2 = Raise IndexError).
Proof.
  assert (Hall : forall u : Spec.CornerVariant,
             (rows * columns <= 3 ->
              exists doc,
                corner_label_generator_grid2.svg_content
                  (Spec.variant_index u) rows columns width height
                  (Py.min width height * xFrac) (Py.min width height * yFrac)
                  fontSize label_line1 label_line2 = Ok doc /\
                List.length (texts (svg_elements doc)) =
                Z.to_nat (rows * columns)) /\
             (3 < rows * columns ->
              corner_label_generator_grid2.svg_content
                (Spec.variant_index u) rows columns width height
                (Py.min width height * xFrac) (Py.min width height * yFrac)
                fontSize label_line1 label_line2 = Raise IndexError)).
  { intros u. rewrite grid_svg_content_variant.
    apply create_svg_corners_grid_result; assumption. }
  split.
  - intros Hle.
    destruct (proj1 (Hall Spec.TopLeft) Hle) as [g0 [H0 L0]].
    destruct (proj1 (Hall Spec.TopRight) Hle) as [g1 [H1 L1]].
    destruct (proj1 (Hall Spec.BottomLeft) Hle) as [g2 [H2 L2]].
    destruct (proj1 (Hall Spec.BottomRight) Hle) as [g3 [H3 L3]].
    cbn [Spec.variant_index] in H0, H1, H2, H3.
    rewrite grid_writeSvg_unfold. cbv zeta. unfold Spec.edgeDistance.
    rewrite H0, H1, H2, H3. cbn [bind].
    eexists. split; [reflexivity |]. split; [reflexivity |].
    repeat constructor; assumption.
  - intros Hgt.
    pose proof (proj2 (Hall Spec.TopLeft) Hgt) as H0.
    cbn [Spec.variant_index] in H0.
    split; [| exact H0].
    rewrite grid_writeSvg_unfold. cbv zeta. unfold Spec.edgeDistance.
    rewrite H0. reflexivity.
Qed.

Lemma grid_writeSvg_all_or_nothing_witness :
  (3 * 3 <= 3 ->
   exists files,
     corner_label_generator_grid2.writeSvg "Alabama" 3 3 139.7 203.2 28
       "Broken Mountain" (Some "Sisters, Kansas") 0.12 0.12 = Ok files /\
     map fst files =
       map (fun suffix => ("Alabama" ++ suffix)%string)
         corner_label_generator_grid2.names /\
     Forall (fun f =>
               List.length (texts (svg_elements (snd f))) =
               Z.to_nat (3 * 3))
       files) /\
  (3 < 3 * 3 ->
   corner_label_generator_grid2.writeSvg "Alabama" 3 3 139.7 203.2 28
     "Broken Mountain" (Some "Sisters, Kansas") 0.12 0.12
   = Raise IndexError /\
   corner_label_generator_grid2.svg_content 0 3 3 139.7 203.2
     (Py.min 139.7 203.2 * 0.12) (Py.min 139.7 203.2 * 0.12)
     28 "Broken Mountain" (Some "Sisters, Kansas") = Raise IndexError).
Proof.
  apply (grid_writeSvg_all_or_nothing "Alabama" 3 3 139.7 203.2 28
           "Broken Mountain" (Some "Sisters, Kansas") 0.12 0.12).
  - vm_compute. split; [discriminate | reflexivity].
  - vm_compute. split; [discriminate | reflexivity].
  - intros _. vm_compute. reflexivity.
Defined.
